(** * chatbot_app.py: product catalogue, lookup, prompt pipeline and history

    A shallow embedding of [chatbot_app.py] and of the library calls it
    relies on (Python [str] methods, the [re] fragment reached through
    pandas' [Series.str.contains], the pandas frame operations of
    [load_product_data] and [get_product_info]), followed by the properties
    of the program.

    Conventions.
    - A Python [str] is a Rocq [string] whose characters are the Unicode
      code points below 256 (ISO 8859-1); this covers the Spanish texts of
      the program.  Case mapping, white space and digits are Python's on
      that range.
    - A call that raises is a [Raise]; the exception classes that the
      program can meet are listed in [exn]. *)

From Stdlib Require Import ZArith List String Ascii Lia Bool QArith.
From stdpp Require Import base option list gmap strings pretty.
Import ListNotations.
Open Scope string_scope.
Open Scope list_scope.
Open Scope Z_scope.

(* ===================================================================== *)
(** ** Python strings *)
(* ===================================================================== *)

Module PyStr.

Definition chars (s : string) : list ascii := list_ascii_of_string s.
Definition of_chars (l : list ascii) : string := string_of_list_ascii l.

Definition ord (c : ascii) : N := N_of_ascii c.

Definition in_range (lo hi : N) (c : ascii) : bool :=
  ((lo <=? ord c) && (ord c <=? hi))%N.

(** Upper-case letters below 256: A-Z, and U+00C0-U+00DE without the
    multiplication sign U+00D7. *)
Definition is_upper (c : ascii) : bool :=
  in_range 65 90 c || (in_range 192 222 c && negb (ord c =? 215)%N).

(** Lower-case letters below 256 whose capital is below 256 too: a-z, and
    U+00E0-U+00FE without the division sign U+00F7. *)
Definition has_capital (c : ascii) : bool :=
  in_range 97 122 c || (in_range 224 254 c && negb (ord c =? 247)%N).

(** The lower-case mapping of one code point (the capital is 32 below). *)
Definition lower_char (c : ascii) : ascii :=
  if is_upper c then ascii_of_N (ord c + 32) else c.

(** [str.lower()]. *)
Definition lower (s : string) : string := of_chars (map lower_char (chars s)).

(** [str.upper()] of one code point.  U+00DF (sharp s) becomes "SS"; the
    capitals of U+00B5 (micro sign) and U+00FF lie above 255, outside the
    modelled range. *)
Definition upper_char (c : ascii) : option (list ascii) :=
  if has_capital c then Some [ascii_of_N (ord c - 32)]
  else if (ord c =? 223)%N then Some ["S"%char; "S"%char]
  else if (ord c =? 181)%N || (ord c =? 255)%N then None
  else Some [c].

Fixpoint upper_chars (l : list ascii) : option (list ascii) :=
  match l with
  | [] => Some []
  | c :: l' =>
      match upper_char c, upper_chars l' with
      | Some u, Some r => Some (u ++ r)
      | _, _ => None
      end
  end.

(** [str.upper()]; [None] when the result leaves the modelled range. *)
Definition upper (s : string) : option string :=
  of_chars <$> upper_chars (chars s).

(** [str.isspace()] of one code point: TAB-CR, FS-US, space, NEL, NBSP. *)
Definition isspace (c : ascii) : bool :=
  in_range 9 13 c || in_range 28 32 c || (ord c =? 133)%N || (ord c =? 160)%N.

(** [str.isdecimal()] of one code point: below 256 only 0-9. *)
Definition isdecimal (c : ascii) : bool := in_range 48 57 c.

Definition is_ascii_alnum (c : ascii) : bool :=
  in_range 48 57 c || in_range 65 90 c || in_range 97 122 c.

Fixpoint lstrip_chars (l : list ascii) : list ascii :=
  match l with
  | c :: l' => if isspace c then lstrip_chars l' else l
  | [] => []
  end.

Fixpoint rstrip_chars (l : list ascii) : list ascii :=
  match l with
  | c :: l' =>
      match rstrip_chars l' with
      | [] => if isspace c then [] else [c]
      | r => c :: r
      end
  | [] => []
  end.

(** [str.strip()] with no argument: white space removed at both ends. *)
Definition strip (s : string) : string :=
  of_chars (rstrip_chars (lstrip_chars (chars s))).

(** [t in s]. *)
Definition contains (s t : string) : Prop :=
  exists pre post : string, s = pre +:+ t +:+ post.

(** Containment ignoring case: the lower-cased [s] contains the
    lower-cased [t]. *)
Definition contains_ignoring_case (s t : string) : Prop :=
  contains (lower s) (lower t).

(** The same test as a function: [t] is, ignoring case, a prefix of [l];
    [t] occurs, ignoring case, somewhere in [l]. *)
Fixpoint prefix_ic (t l : list ascii) : bool :=
  match t, l with
  | [], _ => true
  | c :: t', x :: l' => bool_decide (lower_char x = lower_char c) && prefix_ic t' l'
  | _ :: _, [] => false
  end.

Fixpoint occurs_ic (t l : list ascii) : bool :=
  prefix_ic t l || match l with [] => false | _ :: l' => occurs_ic t l' end.

Definition contains_icb (s t : string) : bool := occurs_ic (chars t) (chars s).

(** Code point [n] as a one-character string. *)
Definition chr (n : N) : string := String (ascii_of_N n) EmptyString.

End PyStr.

(* ===================================================================== *)
(** ** The fragment of Python's [re] reached by [str.contains]

    [Series.str.contains(pat, case=False)] has [regex=True] by default: it
    compiles [pat] with [re.compile(pat, flags=re.IGNORECASE)] and tests
    each string with [pattern.search].  The fragment modelled here has
    literal characters, [.], groups [( )], alternation [|], the
    quantifiers [*], [+], [?] with their lazy forms, escaped punctuation
    and the classes [\d] and [\D].  A pattern that uses anything else
    ([^], [$], [[ ]], [{ }], [(?...)], other escapes, possessive
    quantifiers) is reported as [OutsideFragment]: the model says nothing
    about it. *)
(* ===================================================================== *)

Module Re.

Inductive charset : Type :=
| Literal (c : ascii)          (* LITERAL: this character *)
| LiteralIgnore (lo : ascii)   (* LITERAL_UNI_IGNORE: lower-cases to [lo] *)
| AnyChar                      (* [.]: anything but a newline *)
| Digit                        (* [\d] *)
| NotDigit.                    (* [\D] *)

Definition charset_match (cs : charset) (x : ascii) : bool :=
  match cs with
  | Literal c => bool_decide (x = c)
  | LiteralIgnore lo => bool_decide (PyStr.lower_char x = lo)
  | AnyChar => negb (PyStr.ord x =? 10)%N
  | Digit => PyStr.isdecimal x
  | NotDigit => negb (PyStr.isdecimal x)
  end.

Inductive regex : Type :=
| Never                        (* matches nothing *)
| Empty                        (* matches the empty string *)
| Char (cs : charset)
| Seq (r1 r2 : regex)
| Branch (r1 r2 : regex)
| Repeat (r : regex).          (* zero or more times *)

(** *** Parsing (sre_parse) *)

(** One alternation level under construction: the finished branches and
    the items of the branch being read, both most recent first.  An item
    remembers whether it is a quantified one. *)
Record frame : Type := Frame {
  branches : list regex;
  items : list (regex * bool)
}.

Definition empty_frame : frame := Frame [] [].

Definition seq_regex (its : list (regex * bool)) : regex :=
  fold_left (fun acc it => Seq (fst it) acc) its Empty.

Definition branch_regex (bs : list regex) : regex :=
  fold_left (fun acc b => Branch b acc) bs Never.

Definition close (f : frame) : regex :=
  branch_regex (seq_regex (items f) :: branches f).

Definition push (r : regex) (quantified : bool) (f : frame) : frame :=
  Frame (branches f) ((r, quantified) :: items f).

Definition literal (ignorecase : bool) (c : ascii) : regex :=
  Char (if ignorecase then LiteralIgnore (PyStr.lower_char c) else Literal c).

Definition quantify (q : ascii) (r : regex) : regex :=
  if bool_decide (q = "*"%char) then Repeat r
  else if bool_decide (q = "+"%char) then Seq r (Repeat r)
  else Branch r Empty.

Inductive compiled : Type :=
| Pattern (r : regex)
| PatternError          (* re.error *)
| OutsideFragment.

Definition is_quantifier (c : ascii) : bool :=
  bool_decide (c = "*"%char) || bool_decide (c = "+"%char) || bool_decide (c = "?"%char).

Fixpoint parse (ignorecase : bool) (pat : list ascii)
    (cur : frame) (stack : list frame) : compiled :=
  match pat with
  | [] =>
      match stack with
      | [] => Pattern (close cur)
      | _ :: _ => PatternError                 (* missing ), unterminated subpattern *)
      end
  | c :: rest =>
      if bool_decide (c = "("%char) then
        match rest with
        | "?"%char :: _ => OutsideFragment     (* extension notation *)
        | _ => parse ignorecase rest empty_frame (cur :: stack)
        end
      else if bool_decide (c = ")"%char) then
        match stack with
        | [] => PatternError                   (* unbalanced parenthesis *)
        | up :: stack' => parse ignorecase rest (push (close cur) false up) stack'
        end
      else if bool_decide (c = "|"%char) then
        parse ignorecase rest (Frame (seq_regex (items cur) :: branches cur) []) stack
      else if is_quantifier c then
        match items cur with
        | [] => PatternError                   (* nothing to repeat *)
        | (_, true) :: _ => PatternError       (* multiple repeat *)
        | (r, false) :: its =>
            let cur' := Frame (branches cur) ((quantify c r, true) :: its) in
            match rest with
            | "?"%char :: rest' => parse ignorecase rest' cur' stack   (* lazy *)
            | "+"%char :: _ => OutsideFragment (* possessive, or an error before 3.11 *)
            | _ => parse ignorecase rest cur' stack
            end
        end
      else if bool_decide (c = "\"%char) then
        match rest with
        | [] => PatternError                   (* bad escape (end of pattern) *)
        | e :: rest' =>
            if bool_decide (e = "d"%char) then
              parse ignorecase rest' (push (Char Digit) false cur) stack
            else if bool_decide (e = "D"%char) then
              parse ignorecase rest' (push (Char NotDigit) false cur) stack
            else if PyStr.is_ascii_alnum e then OutsideFragment
            else parse ignorecase rest' (push (literal ignorecase e) false cur) stack
        end
      else if bool_decide (c = "."%char) then
        parse ignorecase rest (push (Char AnyChar) false cur) stack
      else if bool_decide (c = "^"%char) || bool_decide (c = "$"%char)
              || bool_decide (c = "["%char) || bool_decide (c = "{"%char) then
        OutsideFragment
      else
        parse ignorecase rest (push (literal ignorecase c) false cur) stack
  end.

(** [re.compile(pat, flags)] where [flags] is [re.IGNORECASE] or 0. *)
Definition compile (pat : string) (ignorecase : bool) : compiled :=
  parse ignorecase (PyStr.chars pat) empty_frame [].

(** *** Matching *)

Fixpoint nullable (r : regex) : bool :=
  match r with
  | Never => false
  | Empty => true
  | Char _ => false
  | Seq r1 r2 => nullable r1 && nullable r2
  | Branch r1 r2 => nullable r1 || nullable r2
  | Repeat _ => true
  end.

(** What remains to be matched after reading [x]. *)
Fixpoint after (x : ascii) (r : regex) : regex :=
  match r with
  | Never => Never
  | Empty => Never
  | Char cs => if charset_match cs x then Empty else Never
  | Seq r1 r2 =>
      if nullable r1 then Branch (Seq (after x r1) r2) (after x r2)
      else Seq (after x r1) r2
  | Branch r1 r2 => Branch (after x r1) (after x r2)
  | Repeat r1 => Seq (after x r1) (Repeat r1)
  end.

(** [pattern.match(s) is not None]: a prefix of [s] matches. *)
Fixpoint match_here (r : regex) (s : list ascii) : bool :=
  nullable r ||
  match s with
  | [] => false
  | x :: s' => match_here (after x r) s'
  end.

(** [pattern.search(s) is not None]: a match starts at some position. *)
Fixpoint search_chars (r : regex) (s : list ascii) : bool :=
  match_here r s ||
  match s with
  | [] => false
  | _ :: s' => search_chars r s'
  end.

Definition search (r : regex) (s : string) : bool :=
  search_chars r (PyStr.chars s).

(** The strings a pattern matches in full. *)
Inductive Matches : regex -> list ascii -> Prop :=
| MEmpty : Matches Empty []
| MChar cs x : charset_match cs x = true -> Matches (Char cs) [x]
| MSeq r1 r2 s1 s2 : Matches r1 s1 -> Matches r2 s2 -> Matches (Seq r1 r2) (s1 ++ s2)
| MBranchL r1 r2 s : Matches r1 s -> Matches (Branch r1 r2) s
| MBranchR r1 r2 s : Matches r2 s -> Matches (Branch r1 r2) s
| MRepeat0 r : Matches (Repeat r) []
| MRepeatS r s1 s2 : Matches r s1 -> Matches (Repeat r) s2 -> Matches (Repeat r) (s1 ++ s2).

(** The characters with a special meaning in a pattern (sre_parse's
    SPECIAL_CHARS); a pattern without them is read literally. *)
Definition special (c : ascii) : bool :=
  bool_decide (c ∈ PyStr.chars ".\[{()*+?^$|").

(** No character of the pattern has a special meaning. *)
Definition plain (pat : string) : bool :=
  forallb (fun c => negb (special c)) (PyStr.chars pat).

(** The items, and the sequence, that the characters of a plain pattern
    are parsed into. *)
Definition literal_items (ic : bool) (l : list ascii) : list (regex * bool) :=
  map (fun c => (literal ic c, false)) l.

Definition literal_seq (ic : bool) (l : list ascii) : regex :=
  fold_right (fun c acc => Seq (literal ic c) acc) Empty l.

End Re.

(* ===================================================================== *)
(** ** Outcomes of a call *)
(* ===================================================================== *)

Inductive exn : Type :=
| FileNotFoundError      (* the file is missing *)
| ReadError              (* [read_excel] cannot read the file as a sheet *)
| ValueError             (* length mismatch when column labels are assigned *)
| KeyError               (* a label or a key that is absent *)
| AttributeError         (* [.str] on values that are not strings *)
| TypeError              (* [re.compile] on a pattern that is not a [str] *)
| ReError.               (* [re.error]: the pattern does not compile *)

(** A call returns, raises, or leaves the modelled fragment of [re]. *)
Inductive outcome (A : Type) : Type :=
| Return (a : A)
| Raise (e : exn)
| Unmodelled.
Arguments Return {A} a.
Arguments Raise {A} e.
Arguments Unmodelled {A}.

Definition obind {A B : Type} (m : outcome A) (f : A -> outcome B) : outcome B :=
  match m with
  | Return a => f a
  | Raise e => Raise e
  | Unmodelled => Unmodelled
  end.

Notation "'let*' x := m 'in' k" := (obind m (fun x => k))
  (at level 10, x name, m at level 100, k at level 200).

(** Text written in this file is UTF-8; [latin1] turns it into the code
    points it denotes (two-byte sequences led by 0xC2 or 0xC3). *)
Fixpoint latin1_chars (l : list ascii) : list ascii :=
  match l with
  | c :: l' =>
      match l' with
      | d :: l'' =>
          if (PyStr.ord c =? 194)%N then d :: latin1_chars l''
          else if (PyStr.ord c =? 195)%N then ascii_of_N (PyStr.ord d + 64) :: latin1_chars l''
          else c :: latin1_chars l'
      | [] => [c]
      end
  | [] => []
  end.

Definition latin1 (s : string) : string :=
  PyStr.of_chars (latin1_chars (PyStr.chars s)).

Definition nl : string := PyStr.chr 10.

(* ===================================================================== *)
(** ** The pandas operations used by the program *)
(* ===================================================================== *)

Module Pandas.

(** The value of a cell once pandas has read it: a [str], a missing value,
    or a number (integers only; other floats are not modelled). *)
Inductive cell : Type :=
| Text (s : string)
| NaN
| Int (z : Z).

#[export] Instance cell_eq_dec : EqDecision cell.
Proof. solve_decision. Defined.

Definition is_text (c : cell) : bool :=
  match c with Text _ => true | _ => false end.
Definition is_nan (c : cell) : bool :=
  match c with NaN => true | _ => false end.

(** The dtype of a column: [object], or a numeric one (int64, float64). *)
Inductive dtype : Type := ObjectDtype | NumericDtype.

(** A frame, row-major.  Every row carries its index label; a row that is
    shorter than the header reads as padded with missing values. *)
Record DataFrame : Type := {
  columns : list string;
  dtypes : list dtype;
  rows : list (Z * list cell)
}.

Record Series : Type := {
  s_dtype : dtype;
  values : list cell
}.

(** A file handed to [read_excel]: missing, not readable as a sheet, or a
    sheet with a header row and a body of rows of cells. *)
Inductive source : Type :=
| Missing
| NotASheet
| Sheet (header : list string) (body : list (list cell)).

Definition cell_at (j : nat) (r : list cell) : cell := nth j r NaN.

(** The dtype pandas gives a column it has read: [object] as soon as one
    value is a [str] (and for a column with no rows), numeric otherwise. *)
Definition column_dtype (vs : list cell) : dtype :=
  match vs with
  | [] => ObjectDtype
  | _ :: _ => if existsb is_text vs then ObjectDtype else NumericDtype
  end.

(** Labels 0, 1, ... (a RangeIndex). *)
Definition range_index {A : Type} (l : list A) : list (Z * A) :=
  zip (seqZ 0 (Z.of_nat (length l))) l.

(** [pd.read_excel(file_path)]. *)
Definition read_excel (file_path : source) : outcome DataFrame :=
  match file_path with
  | Missing => Raise FileNotFoundError
  | NotASheet => Raise ReadError
  | Sheet header body =>
      Return {| columns := header;
                dtypes := map (fun j => column_dtype (map (cell_at j) body))
                              (seq 0 (length header));
                rows := range_index body |}
  end.

(** [df.columns = labels]. *)
Definition set_columns (labels : list string) (df : DataFrame) : outcome DataFrame :=
  if bool_decide (length labels = length (columns df)) then
    Return {| columns := labels; dtypes := dtypes df; rows := rows df |}
  else Raise ValueError.

(** [df.drop(label)]: the rows labelled [label] removed; the label must
    be present. *)
Definition drop (label : Z) (df : DataFrame) : outcome DataFrame :=
  if existsb (fun r => fst r =? label) (rows df) then
    Return {| columns := columns df; dtypes := dtypes df;
              rows := filter (fun r => fst r <> label) (rows df) |}
  else Raise KeyError.

(** [df.reset_index(drop=True)]. *)
Definition reset_index (df : DataFrame) : DataFrame :=
  {| columns := columns df; dtypes := dtypes df;
     rows := range_index (map snd (rows df)) |}.

(** [df[label]]: a Series when the label names one column, a frame when
    it names several. *)
Inductive item : Type :=
| OneColumn (s : Series)
| SubFrame.

Fixpoint positions (label : string) (labels : list string) (j : nat) : list nat :=
  match labels with
  | [] => []
  | l :: labels' =>
      if bool_decide (l = label) then j :: positions label labels' (S j)
      else positions label labels' (S j)
  end.

Definition getitem (label : string) (df : DataFrame) : outcome item :=
  match positions label (columns df) 0 with
  | [] => Raise KeyError
  | [j] => Return (OneColumn {| s_dtype := nth j (dtypes df) ObjectDtype;
                                values := map (fun r => cell_at j (snd r)) (rows df) |})
  | _ :: _ :: _ => Return SubFrame
  end.

(** [.str]: only for an object column whose values, missing ones apart,
    are not all numbers; a frame has no [.str]. *)
Definition str_accessor (it : item) : outcome Series :=
  match it with
  | SubFrame => Raise AttributeError
  | OneColumn s =>
      match s_dtype s with
      | NumericDtype => Raise AttributeError
      | ObjectDtype =>
          if existsb is_text (values s) || forallb is_nan (values s)
          then Return s else Raise AttributeError
      end
  end.

(** [s.str.contains(pat, case=case, na=na)], with the default
    [regex=True]: [pat] is compiled as a regular expression and searched
    for in every string; other values give [na]. *)
Definition str_contains (s : Series) (pat : string) (case na : bool)
    : outcome (list bool) :=
  match Re.compile pat (negb case) with
  | Re.PatternError => Raise ReError
  | Re.OutsideFragment => Unmodelled
  | Re.Pattern r =>
      Return (map (fun c => match c with
                            | Text t => Re.search r t
                            | _ => na
                            end) (values s))
  end.

(** [df[mask]]: the rows whose mask entry is true, in order. *)
Definition boolean_index (df : DataFrame) (mask : list bool) : DataFrame :=
  {| columns := columns df; dtypes := dtypes df;
     rows := map fst (filter (fun rm => Is_true (snd rm)) (zip (rows df) mask)) |}.

(** The [dict] of one row ([row.to_dict()]): each column label bound to
    the row's cell, a later label overriding an equal earlier one. *)
Definition to_dict (labels : list string) (r : list cell) : gmap string cell :=
  foldl (fun d jl => <[snd jl := cell_at (fst jl) r]> d) ∅
        (zip (seq 0 (length labels)) labels).

End Pandas.
Export Pandas.

(* ===================================================================== *)
(** ** chatbot_app.py, section 3: loading the product data *)
(* ===================================================================== *)

(** The two labels with an accent, as code points. *)
Definition Descripcion : string := Eval vm_compute in latin1 "Descripción".
Definition Aplicacion : string := Eval vm_compute in latin1 "Aplicación".

(** The labels assigned by [load_product_data]. *)
Definition product_columns : list string :=
  [ "Index"; "Producto"; Descripcion; "Beneficios"; Aplicacion;
    "Recomendaciones de Uso" ].

(** [load_product_data(file_path)]. *)
Definition load_product_data (file_path : source) : outcome DataFrame :=
  let* df := read_excel file_path in
  let* df := set_columns product_columns df in
  let* df := drop 0 df in
  Return (reset_index df).

(* ===================================================================== *)
(** ** Section 4: helper functions *)
(* ===================================================================== *)

(** [get_product_info(product_name, data)]: [None] when no row is selected
    ([product_row.empty]), else the dictionary of the first selected row
    ([product_row.iloc[0].to_dict()]). *)
Definition get_product_info (product_name : string) (data : DataFrame)
    : outcome (option (gmap string cell)) :=
  let* col := getitem "Producto" data in
  let* names := str_accessor col in
  let* mask := str_contains names product_name false false in
  let product_row := boolean_index data mask in
  match rows product_row with
  | [] => Return None
  | (_, r) :: _ => Return (Some (to_dict (columns product_row) r))
  end.

(** The keyword arguments of [openai.ChatCompletion.create]. *)
Record request : Type := {
  model : string;
  messages : list (string * string);      (* role, content *)
  max_tokens : Z;
  temperature : Q
}.

(** What the [try] block of [generate_chatbot_response] meets. *)
Inductive api_outcome : Type :=
| Completion (content : string)
    (* the call returns, and [response['choices'][0]['message']['content']]
       is this [str] *)
| OpenAIError (e : string)
    (* [openai.error.OpenAIError] is raised; [e] is [str(e)] *)
| OtherException (e : string).
    (* any other [Exception], raised by the call or while the content is
       read off the response; [e] is [str(e)] *)

(** What a script run shows or sends. *)
Inductive effect : Type :=
| ApiRequest (r : request)
| SidebarWarning (msg : string)
| SidebarError (msg : string)
| SidebarSuccess (msg : string).

(** [st.session_state] and the effects so far. *)
Record state : Type := {
  session_state : gmap string (list (string * string));
  trace : list effect
}.

Definition M (A : Type) : Type := state -> state * outcome A.

Definition ret {A : Type} (a : A) : M A := fun st => (st, Return a).
Definition lift {A : Type} (o : outcome A) : M A := fun st => (st, o).
Definition bind {A B : Type} (m : M A) (f : A -> M B) : M B :=
  fun st =>
    match m st with
    | (st', Return a) => f a st'
    | (st', Raise e) => (st', Raise e)
    | (st', Unmodelled) => (st', Unmodelled)
    end.

Notation "'let!' x := m 'in' k" := (bind m (fun x => k))
  (at level 10, x name, m at level 100, k at level 200).

Definition emit (e : effect) : M unit :=
  fun st => ({| session_state := session_state st; trace := trace st ++ [e] |}, Return tt).

(** The value an f-string puts for a cell. *)
Definition format_cell (v : cell) : string :=
  match v with
  | Text s => s
  | NaN => "nan"
  | Int z => pretty z
  end.

(** [product_info[key]]. *)
Definition subscript (product_info : gmap string cell) (key : string) : outcome cell :=
  match product_info !! key with
  | Some v => Return v
  | None => Raise KeyError
  end.

(** The prompt built at the head of [generate_chatbot_response]. *)
Definition build_prompt (product_info : gmap string cell) (user_question : string)
    : outcome string :=
  let* producto := subscript product_info "Producto" in
  let* descripcion := subscript product_info Descripcion in
  let* beneficios := subscript product_info "Beneficios" in
  let* aplicacion := subscript product_info Aplicacion in
  let* recomendaciones := subscript product_info "Recomendaciones de Uso" in
  Return (
    "Eres un asistente que ayuda a responder preguntas sobre productos. "
    +:+ latin1 "Usa únicamente la siguiente información para tu respuesta en español."
    +:+ nl +:+ nl
    +:+ "**Nombre del Producto**: " +:+ format_cell producto +:+ nl
    +:+ latin1 "**Descripción**: " +:+ format_cell descripcion +:+ nl
    +:+ "**Beneficios**: " +:+ format_cell beneficios +:+ nl
    +:+ latin1 "**Aplicación**: " +:+ format_cell aplicacion +:+ nl
    +:+ "**Recomendaciones de Uso**: " +:+ format_cell recomendaciones +:+ nl +:+ nl
    +:+ "**Pregunta del Usuario**: " +:+ user_question +:+ nl
    +:+ "**Respuesta**:").

Definition system_message : string :=
  latin1 "Eres un asistente útil y responde siempre en español.".

Definition chat_request (prompt : string) : request :=
  {| model := "gpt-4o-2024-08-06";
     messages := [("system", system_message); ("user", prompt)];
     max_tokens := 500;
     temperature := 7 # 10 |}.

Section Script.

(** The behaviour of [openai.ChatCompletion.create] during one run. *)
Variable create : request -> api_outcome.

(** [generate_chatbot_response(product_info, user_question)]. *)
Definition generate_chatbot_response (product_info : gmap string cell)
    (user_question : string) : M string :=
  let! prompt := lift (build_prompt product_info user_question) in
  let! _ := emit (ApiRequest (chat_request prompt)) in
  match create (chat_request prompt) with
  | Completion content => ret (PyStr.strip content)
  | OpenAIError e =>
      ret (latin1 "Ocurrió un error al procesar tu solicitud: " +:+ e)
  | OtherException e =>
      ret (latin1 "Ocurrió un error inesperado: " +:+ e)
  end.

(* =================================================================== *)
(** ** Sections 6 and 7: one run of the script on a loaded catalogue *)
(* =================================================================== *)

(** The widgets' values in a run.  The select box yields one of the
    product names, or [None] when there is none. *)
Record widgets : Type := {
  selected_product : option cell;
  user_question : string;
  button : bool
}.

Definition MAX_HISTORY : nat := 5.

(** [product_names = product_data['Producto'].tolist()]. *)
Definition product_names (product_data : DataFrame) : outcome (list cell) :=
  let* it := getitem "Producto" product_data in
  match it with
  | OneColumn s => Return (values s)
  | SubFrame => Raise AttributeError
  end.

(** [if 'conversation' not in st.session_state: ... = []]. *)
Definition init_conversation : M unit :=
  fun st =>
    match session_state st !! "conversation" with
    | Some _ => (st, Return tt)
    | None => ({| session_state := <["conversation" := []]> (session_state st);
                  trace := trace st |}, Return tt)
    end.

(** [st.session_state['conversation']]. *)
Definition conversation : M (list (string * string)) :=
  fun st =>
    match session_state st !! "conversation" with
    | Some conv => (st, Return conv)
    | None => (st, Raise KeyError)
    end.

Definition set_conversation (conv : list (string * string)) : M unit :=
  fun st => ({| session_state := <["conversation" := conv]> (session_state st);
                trace := trace st |}, Return tt).

(** [st.session_state['conversation'].append(entry)]. *)
Definition append (entry : string * string) : M unit :=
  let! conv := conversation in
  set_conversation (conv ++ [entry]).

(** [get_product_info(selected_product, product_data)]: a selection that
    is not a [str] reaches [re.compile], which rejects it. *)
Definition lookup_selected (selected : option cell) (product_data : DataFrame)
    : outcome (option (gmap string cell)) :=
  match selected with
  | Some (Text name) => get_product_info name product_data
  | _ =>
      let* col := getitem "Producto" product_data in
      let* _ := str_accessor col in
      Raise TypeError
  end.

(** The body of [if st.sidebar.button("Obtener Respuesta"):]. *)
Definition on_submit (product_data : DataFrame) (w : widgets) : M unit :=
  if bool_decide (user_question w = "") then
    emit (SidebarWarning "Por favor, ingresa una pregunta para obtener una respuesta.")
  else
    let! product_info := lift (lookup_selected (selected_product w) product_data) in
    match product_info with
    | Some info =>
        if bool_decide (info = ∅) then
          emit (SidebarError (latin1 "Información del producto no encontrada. Por favor, selecciona un producto válido."))
        else
          let! answer := generate_chatbot_response info (user_question w) in
          let! _ := append (user_question w, answer) in
          emit (SidebarSuccess (latin1 "¡Respuesta generada!"))
    | None =>
        emit (SidebarError (latin1 "Información del producto no encontrada. Por favor, selecciona un producto válido."))
    end.

(** The history kept to the last [MAX_HISTORY] interactions. *)
Definition limit_history : M unit :=
  let! conv := conversation in
  if bool_decide (MAX_HISTORY < length conv)%nat then set_conversation (tail conv)
  else ret tt.

(** One run of the script from section 6 on. *)
Definition script (product_data : DataFrame) (w : widgets) : M unit :=
  let! _ := lift (product_names product_data) in
  let! _ := init_conversation in
  let! _ := (if button w then on_submit product_data w else ret tt) in
  limit_history.

End Script.

(** The history of a session; a session that has not run yet has none. *)
Definition history (st : state) : list (string * string) :=
  default [] (session_state st !! "conversation").

Definition initial : state := {| session_state := ∅; trace := [] |}.

(** The states a session goes through: script runs from the initial one,
    whatever the service, the catalogue and the widgets are. *)
Inductive reachable : state -> Prop :=
| reachable_initial : reachable initial
| reachable_run st create product_data w :
    reachable st -> reachable (fst (script create product_data w st)).

(* ===================================================================== *)
(** ** The vocabulary of the properties *)
(* ===================================================================== *)

(** [data['Producto'].str]: the name column as [get_product_info]
    searches it. *)
Definition name_column (data : DataFrame) : outcome Series :=
  let* col := getitem "Producto" data in
  str_accessor col.

(** The name of a record: the cell of its row under the label
    "Producto". *)
Definition name_cell (data : DataFrame) (r : Z * list cell) : cell :=
  match positions "Producto" (columns data) 0 with
  | j :: _ => cell_at j (snd r)
  | [] => NaN
  end.

(** The name is a text that contains [q], ignoring case. *)
Definition name_contains (q : string) (name : cell) : bool :=
  match name with
  | Text t => PyStr.contains_icb t q
  | _ => false
  end.

(** The record of the first row, in catalogue order, whose name contains
    [q] ignoring case; [None] when there is no such row. *)
Definition first_containing (q : string) (data : DataFrame) : option (gmap string cell) :=
  match filter (fun r => Is_true (name_contains q (name_cell data r))) (rows data) with
  | [] => None
  | r :: _ => Some (to_dict (columns data) (snd r))
  end.

(** The keys that [build_prompt] reads. *)
Definition prompt_keys : list string :=
  [ "Producto"; Descripcion; "Beneficios"; Aplicacion;
    "Recomendaciones de Uso" ].

(** The answer that [generate_chatbot_response] makes of what the [try]
    block met. *)
Definition answer_of (o : api_outcome) : string :=
  match o with
  | Completion content => PyStr.strip content
  | OpenAIError e => latin1 "Ocurrió un error al procesar tu solicitud: " +:+ e
  | OtherException e => latin1 "Ocurrió un error inesperado: " +:+ e
  end.

(** The requests among the effects of a run. *)
Definition api_requests (tr : list effect) : list request :=
  omap (fun e => match e with ApiRequest r => Some r | _ => None end) tr.

(** A history with one more entry, kept to [MAX_HISTORY] entries by
    dropping the oldest. *)
Definition appended (conv : list (string * string)) (entry : string * string)
    : list (string * string) :=
  if bool_decide (length conv < MAX_HISTORY)%nat then conv ++ [entry]
  else tail conv ++ [entry].

(** [answer] is [content] without the white space at its two ends. *)
Definition trimmed_of (content answer : string) : Prop :=
  exists l r : list ascii,
    PyStr.chars content = l ++ PyStr.chars answer ++ r /\
    forallb PyStr.isspace l = true /\ forallb PyStr.isspace r = true /\
    (forall c, head (PyStr.chars answer) = Some c -> PyStr.isspace c = false) /\
    (forall c, last (PyStr.chars answer) = Some c -> PyStr.isspace c = false).

(** The entry and the request of a submission that reaches the answer: the
    question is not empty, the lookup returns a record, the prompt is
    built. *)
Definition submitted (create : request -> api_outcome) (product_data : DataFrame)
    (w : widgets) : option ((string * string) * request) :=
  if bool_decide (user_question w = "") then None
  else
    match lookup_selected (selected_product w) product_data with
    | Return (Some info) =>
        if bool_decide (info = ∅) then None
        else
          match build_prompt info (user_question w) with
          | Return prompt =>
              Some ((user_question w, answer_of (create (chat_request prompt))),
                    chat_request prompt)
          | _ => None
          end
    | _ => None
    end.

(** The same for a run of the script: the button was pressed as well. *)
Definition answered (create : request -> api_outcome) (product_data : DataFrame)
    (w : widgets) : option ((string * string) * request) :=
  match product_names product_data with
  | Return _ => if button w then submitted create product_data w else None
  | _ => None
  end.

(* ===================================================================== *)
(** ** Section 5: choosing and loading the source *)
(* ===================================================================== *)

(** What section 5 shows in the side bar. *)
Inductive notice : Type :=
| NoticeSuccess (msg : string)
| NoticeInfo (msg : string)
| NoticeError (msg : string).

Section Loading.

(** [str(e)] for the exception [e] that the loading raised. *)
Variable exception_text : exn -> string.

(** Section 5 of the script: the uploaded file when there is one, the
    default file otherwise.  The result is what the side bar shows and the
    catalogue, or no catalogue when [st.stop()] ended the run.
    ([load_product_data] never leaves the modelled fragment.) *)
Definition choose_product_data (uploaded_file : option source) (default_file : source)
    : list notice * option DataFrame :=
  match uploaded_file with
  | Some file =>
      match load_product_data file with
      | Return product_data =>
          ([NoticeSuccess (latin1 "¡Datos de productos cargados exitosamente!")],
           Some product_data)
      | Raise e =>
          ([NoticeError ("Error al cargar el archivo: " +:+ exception_text e)], None)
      | Unmodelled => ([], None)
      end
  | None =>
      match load_product_data default_file with
      | Return product_data =>
          ([NoticeInfo "Datos de productos por defecto cargados."], Some product_data)
      | Raise FileNotFoundError =>
          ([NoticeError "Archivo de producto por defecto no encontrado. Por favor, sube un archivo Excel."],
           None)
      | Raise e =>
          ([NoticeError ("Error al cargar el archivo por defecto: " +:+ exception_text e)],
           None)
      | Unmodelled => ([], None)
      end
  end.

End Loading.

(* ===================================================================== *)
(** ** A session as a sequence of runs *)
(* ===================================================================== *)

(** What one run of the script is given: the behaviour of the service, the
    catalogue in use and the values of the widgets. *)
Record interaction : Type := {
  service : request -> api_outcome;
  catalogue : DataFrame;
  inputs : widgets
}.

Definition run (st : state) (i : interaction) : state :=
  fst (script (service i) (catalogue i) (inputs i) st).

(** The state of a session after the given runs, oldest first. *)
Definition session (runs : list interaction) : state := foldl run initial runs.

(** The entry that a run appends and the request that it sends, if any. *)
Definition entry_of (i : interaction) : option (string * string) :=
  fst <$> answered (service i) (catalogue i) (inputs i).

Definition request_of (i : interaction) : option request :=
  snd <$> answered (service i) (catalogue i) (inputs i).

(** The last [n] elements of a list. *)
Definition last_entries {A : Type} (n : nat) (l : list A) : list A :=
  skipn (length l - n) l.

(** What a run adds to the trace. *)
Definition shown (create : request -> api_outcome) (product_data : DataFrame)
    (w : widgets) (st : state) : list effect :=
  skipn (length (trace st)) (trace (fst (script create product_data w st))).

(** The request has the fixed parameters of the program and the two
    messages, the second being [prompt]. *)
Definition well_formed_request (r : request) : Prop :=
  exists prompt,
    r = {| model := "gpt-4o-2024-08-06";
           messages := [("system", system_message); ("user", prompt)];
           max_tokens := 500;
           temperature := 7 # 10 |}.

(** The name is a text in which the compiled pattern [r] is found. *)
Definition name_matches (r : Re.regex) (name : cell) : bool :=
  match name with
  | Text t => Re.search r t
  | _ => false
  end.

(** The record of the first row, in catalogue order, whose name matches
    the pattern; [None] when there is no such row. *)
Definition first_matching (r : Re.regex) (data : DataFrame) : option (gmap string cell) :=
  match filter (fun row => Is_true (name_matches r (name_cell data row))) (rows data) with
  | [] => None
  | row :: _ => Some (to_dict (columns data) (snd row))
  end.

(** The three messages of the submission. *)
Definition empty_question_warning : effect :=
  SidebarWarning "Por favor, ingresa una pregunta para obtener una respuesta.".
Definition not_found_error : effect :=
  SidebarError (latin1 "Información del producto no encontrada. Por favor, selecciona un producto válido.").
Definition answered_success : effect :=
  SidebarSuccess (latin1 "¡Respuesta generada!").

(** What a submission adds to the trace. *)
Definition submit_effects (create : request -> api_outcome) (product_data : DataFrame)
    (w : widgets) : list effect :=
  if bool_decide (user_question w = "") then [empty_question_warning]
  else
    match lookup_selected (selected_product w) product_data with
    | Return (Some info) =>
        if bool_decide (info = ∅) then [not_found_error]
        else
          match build_prompt info (user_question w) with
          | Return prompt => [ApiRequest (chat_request prompt); answered_success]
          | _ => []
          end
    | Return None => [not_found_error]
    | _ => []
    end.

(* ===================================================================== *)
(** ** Sample sheets *)
(* ===================================================================== *)

(** A six-column sheet: a header row, the reserved first row, and one row
    per product name. *)
Definition sample_header : list string := ["N"; "P"; "D"; "B"; "A"; "R"].

Definition sample_row (i : Z) (name : string) : list cell :=
  [Int i; Text name; Text "D"; Text "B"; Text "A"; Text "U"].

Definition reserved_row : list cell :=
  [NaN; Text "nombre"; Text "texto"; Text "texto"; Text "texto"; Text "texto"].

Definition sample_sheet (names : list string) : source :=
  Sheet sample_header (reserved_row :: imap (fun i => sample_row (Z.of_nat i + 1)) names).

(** The catalogue that [load_product_data] makes of [sample_sheet names]. *)
Definition sample_catalog (names : list string) : DataFrame :=
  {| columns := product_columns;
     dtypes := [NumericDtype; ObjectDtype; ObjectDtype; ObjectDtype; ObjectDtype;
                ObjectDtype];
     rows := range_index (imap (fun i => sample_row (Z.of_nat i + 1)) names) |}.

(** The record of a sample row. *)
Definition sample_record (i : Z) (name : string) : gmap string cell :=
  to_dict product_columns (sample_row i name).

(** A run in which the question [q] about "Sealant X" is submitted and the
    service answers "ok". *)
Definition sealant_widgets (q : string) : widgets :=
  {| selected_product := Some (Text "Sealant X"); user_question := q; button := true |}.

Definition ask (q : string) (st : state) : state :=
  fst (script (fun _ => Completion "ok") (sample_catalog ["Sealant X"])
              (sealant_widgets q) st).

(** A session after five answered questions. *)
Definition five_questions : state :=
  ask "q5" (ask "q4" (ask "q3" (ask "q2" (ask "q1" initial)))).

(* ===================================================================== *)
(** * Properties *)
(* ===================================================================== *)

(** ** The matcher and the strings a pattern denotes *)

Module ReFacts.
Import Re.

Create HintDb re.
#[local] Hint Constructors Matches : re.

Lemma nullable_Matches r : nullable r = true <-> Matches r [].
Proof.
  split.
  - induction r; simpl; intros H; try discriminate; eauto with re.
    + apply andb_true_iff in H as [H1 H2].
      change (@nil ascii) with (@nil ascii ++ []). eauto with re.
    + apply orb_true_iff in H as [H|H]; eauto with re.
  - remember [] as s eqn:Hs. induction 1; simpl; subst; try discriminate; auto.
    + apply app_eq_nil in Hs as [-> ->]. rewrite IHMatches1, IHMatches2; auto.
    + rewrite IHMatches; auto.
    + rewrite IHMatches; auto using orb_true_r.
Qed.

(** A non-empty match of [Repeat r] starts with a non-empty match of [r]. *)
Lemma Matches_Repeat_cons r x s :
  Matches (Repeat r) (x :: s) ->
  exists s1 s2, s = s1 ++ s2 /\ Matches r (x :: s1) /\ Matches (Repeat r) s2.
Proof.
  remember (Repeat r) as r' eqn:Hr. remember (x :: s) as xs eqn:Hxs.
  intros H. revert x s Hxs.
  induction H; intros y t Hxs; try discriminate.
  injection Hr as ->.
  destruct s1 as [|z s1]; simpl in Hxs.
  - apply IHMatches2; auto.
  - injection Hxs as -> <-. eauto.
Qed.

Lemma after_Matches x r s : Matches (after x r) s <-> Matches r (x :: s).
Proof.
  revert s. induction r; intros s; simpl.
  - split; inversion 1.
  - split; inversion 1.
  - destruct (charset_match cs x) eqn:E; split; intros H.
    + inversion H; subst. eauto with re.
    + inversion H; subst. constructor.
    + inversion H.
    + inversion H; subst. congruence.
  - assert (HS : Matches (Seq (after x r1) r2) s -> Matches (Seq r1 r2) (x :: s)).
    { inversion 1; subst. change (x :: s1 ++ s2) with ((x :: s1) ++ s2).
      constructor; auto. apply IHr1; auto. }
    assert (HN : Matches (after x r2) s -> nullable r1 = true ->
                 Matches (Seq r1 r2) (x :: s)).
    { intros H Hn. change (x :: s) with ([] ++ x :: s).
      constructor; [apply nullable_Matches; auto | apply IHr2; auto]. }
    assert (HI : Matches (Seq r1 r2) (x :: s) ->
                 Matches (Seq (after x r1) r2) s \/
                 (nullable r1 = true /\ Matches (after x r2) s)).
    { intros H. remember (x :: s) as xs eqn:Heq. remember (Seq r1 r2) as r eqn:Hr.
      destruct H as [| |? ? s1 s2 H1 H2| | | |]; try discriminate.
      injection Hr as -> ->.
      destruct s1 as [|y s1]; simpl in Heq.
      - subst. right. split; [apply nullable_Matches; auto | apply IHr2; auto].
      - injection Heq as -> <-. left. constructor; auto. apply IHr1; auto. }
    destruct (nullable r1) eqn:En; split; intros H.
    + inversion H; subst; auto.
    + destruct (HI H) as [?|[_ ?]]; eauto with re.
    + auto.
    + destruct (HI H) as [?|[? _]]; [auto | discriminate].
  - split; intros H.
    + inversion H; subst; [apply MBranchL, IHr1 | apply MBranchR, IHr2]; auto.
    + inversion H; subst; [apply MBranchL, IHr1 | apply MBranchR, IHr2]; auto.
  - split; intros H.
    + inversion H; subst. change (x :: s1 ++ s2) with ((x :: s1) ++ s2).
      constructor; auto. apply IHr; auto.
    + apply Matches_Repeat_cons in H as (s1 & s2 & -> & H1 & H2).
      constructor; auto. apply IHr; auto.
Qed.

Lemma match_here_spec r s :
  match_here r s = true <-> exists p t, s = p ++ t /\ Matches r p.
Proof.
  revert r. induction s as [|x s IH]; intros r; simpl.
  - rewrite orb_false_r, nullable_Matches. split.
    + intros H. exists [], []. auto.
    + intros (p & t & Heq & H). symmetry in Heq.
      apply app_eq_nil in Heq as [-> _]. auto.
  - rewrite orb_true_iff, nullable_Matches, IH. split.
    + intros [H|(p & t & -> & H)].
      * exists [], (x :: s). auto.
      * exists (x :: p), t. split; auto. apply after_Matches; auto.
    + intros (p & t & Heq & H). destruct p as [|y p]; simpl in Heq.
      * left; auto.
      * injection Heq as <- ->. right. exists p, t. split; auto.
        apply after_Matches; auto.
Qed.

Lemma search_chars_spec r s :
  search_chars r s = true <-> exists a p b, s = a ++ p ++ b /\ Matches r p.
Proof.
  induction s as [|x s IH]; cbn [search_chars].
  - rewrite orb_false_r, match_here_spec. split.
    + intros (p & t & -> & H). exists [], p, t. auto.
    + intros (a & p & b & Heq & H). symmetry in Heq.
      apply app_eq_nil in Heq as [-> Heq]. exists p, b. auto.
  - rewrite orb_true_iff, match_here_spec, IH. split.
    + intros [(p & t & -> & H)|(a & p & b & -> & H)].
      * exists [], p, t. auto.
      * exists (x :: a), p, b. auto.
    + intros (a & p & b & Heq & H). destruct a as [|y a]; simpl in Heq.
      * left. exists p, b. auto.
      * injection Heq as <- ->. right. exists a, p, b. auto.
Qed.

End ReFacts.

(** ** Strings and their characters *)

Module PyStrFacts.
Import PyStr.

Lemma chars_of_chars l : chars (of_chars l) = l.
Proof. apply list_ascii_of_string_of_list_ascii. Qed.

Lemma of_chars_chars s : of_chars (chars s) = s.
Proof. apply string_of_list_ascii_of_string. Qed.

Lemma chars_app s t : chars (s +:+ t) = chars s ++ chars t.
Proof.
  unfold chars. induction s as [|c s IH]; simpl; [reflexivity | rewrite IH; reflexivity].
Qed.

Lemma of_chars_app l k : of_chars (l ++ k) = of_chars l +:+ of_chars k.
Proof.
  unfold of_chars. induction l as [|c l IH]; simpl; [reflexivity | rewrite IH; reflexivity].
Qed.

Lemma chars_inj s t : chars s = chars t -> s = t.
Proof. intros H. rewrite <- (of_chars_chars s), <- (of_chars_chars t), H. reflexivity. Qed.

Lemma chars_lower s : chars (lower s) = map lower_char (chars s).
Proof. unfold lower. apply chars_of_chars. Qed.

(** [t in s], on the characters. *)
Lemma contains_chars s t :
  contains s t <-> exists a b, chars s = a ++ chars t ++ b.
Proof.
  split.
  - intros (pre & post & ->). exists (chars pre), (chars post).
    rewrite !chars_app. reflexivity.
  - intros (a & b & H). exists (of_chars a), (of_chars b).
    apply chars_inj. rewrite !chars_app, !chars_of_chars. exact H.
Qed.

Lemma prefix_ic_spec t l :
  prefix_ic t l = true <->
  exists p r, l = p ++ r /\ map lower_char p = map lower_char t.
Proof.
  revert l. induction t as [|c t IH]; intros l; simpl.
  - split; [intros _; exists [], l; auto | auto].
  - destruct l as [|x l].
    + split; [discriminate|]. intros (p & r & Heq & Hp).
      symmetry in Heq. apply app_eq_nil in Heq as [-> _]. discriminate.
    + rewrite andb_true_iff, bool_decide_eq_true, IH. split.
      * intros (Hx & p & r & -> & Hp). exists (x :: p), r. simpl.
        rewrite Hx, Hp. auto.
      * intros (p & r & Heq & Hp). destruct p as [|y p]; [discriminate|].
        simpl in Heq, Hp. injection Heq as <- ->. injection Hp as Hx Hp. eauto.
Qed.

Lemma occurs_ic_spec t l :
  occurs_ic t l = true <->
  exists a p b, l = a ++ p ++ b /\ map lower_char p = map lower_char t.
Proof.
  induction l as [|x l IH]; cbn [occurs_ic].
  - rewrite orb_false_r, prefix_ic_spec. split.
    + intros (p & r & -> & Hp). exists [], p, r. auto.
    + intros (a & p & b & Heq & Hp). symmetry in Heq.
      apply app_eq_nil in Heq as [-> Heq]. exists p, b. auto.
  - rewrite orb_true_iff, prefix_ic_spec, IH. split.
    + intros [(p & r & -> & Hp)|(a & p & b & -> & Hp)].
      * exists [], p, r. auto.
      * exists (x :: a), p, b. auto.
    + intros (a & p & b & Heq & Hp). destruct a as [|y a]; simpl in Heq.
      * left. exists p, b. auto.
      * injection Heq as <- ->. right. exists a, p, b. auto.
Qed.

(** The function decides containment ignoring case. *)
Lemma contains_icb_spec s t :
  contains_icb s t = true <-> contains_ignoring_case s t.
Proof.
  unfold contains_icb, contains_ignoring_case.
  rewrite occurs_ic_spec, contains_chars, !chars_lower. split.
  - intros (a & p & b & -> & Hp). exists (map lower_char a), (map lower_char b).
    rewrite !map_app, Hp. reflexivity.
  - intros (a & b & H).
    apply map_eq_app in H as (a' & r & -> & _ & H).
    apply map_eq_app in H as (p & b' & -> & Hp & _). eauto.
Qed.

Lemma contains_ignoring_case_empty s : contains_ignoring_case s "".
Proof. apply contains_icb_spec. unfold contains_icb. destruct (chars s); reflexivity. Qed.

End PyStrFacts.

(** ** Patterns without special characters *)

Module LiteralPatterns.
Import Re ReFacts PyStrFacts.

Lemma parse_plain ic pat cur stack :
  forallb (fun c => negb (special c)) pat = true ->
  parse ic pat cur stack =
  parse ic [] (Frame (branches cur) (rev (literal_items ic pat) ++ items cur)) stack.
Proof.
  revert cur. induction pat as [|c pat IH]; intros cur H.
  - destruct cur; reflexivity.
  - cbn [forallb] in H. apply andb_true_iff in H as [Hc H].
    apply negb_true_iff, bool_decide_eq_false in Hc.
    cbv [PyStr.chars list_ascii_of_string] in Hc.
    rewrite !not_elem_of_cons in Hc.
    destruct Hc as (? & ? & ? & ? & ? & ? & ? & ? & ? & ? & ? & ? & _).
    cbn [parse]. unfold is_quantifier.
    rewrite !bool_decide_eq_false_2 by assumption. cbn [orb].
    rewrite IH by assumption. cbn [push branches items literal_items map rev].
    rewrite <- app_assoc. reflexivity.
Qed.

Lemma seq_regex_rev ic l :
  seq_regex (rev (literal_items ic l)) = literal_seq ic l.
Proof.
  unfold seq_regex, literal_seq, literal_items.
  induction l as [|c l IH]; simpl; [reflexivity|].
  rewrite fold_left_app. simpl. rewrite IH. reflexivity.
Qed.

(** A plain pattern compiles to the sequence of its characters. *)
Lemma compile_plain pat ic :
  plain pat = true ->
  compile pat ic = Pattern (Branch (literal_seq ic (PyStr.chars pat)) Never).
Proof.
  intros H. unfold compile. rewrite parse_plain by exact H.
  cbn [parse empty_frame branches items close branch_regex fold_left].
  rewrite app_nil_r, seq_regex_rev. reflexivity.
Qed.

Lemma literal_seq_Matches l p :
  Matches (literal_seq true l) p <-> map PyStr.lower_char p = map PyStr.lower_char l.
Proof.
  revert p. induction l as [|c l IH]; intros p; simpl.
  - split.
    + inversion 1. reflexivity.
    + intros H. apply map_eq_nil in H as ->. constructor.
  - split.
    + inversion 1 as [| |? ? s1 s2 H1 H2| | | |]; subst.
      inversion H1 as [|? x Hx| | | | |]; subst. simpl in Hx.
      apply bool_decide_eq_true in Hx. apply IH in H2. simpl. congruence.
    + intros H. destruct p as [|x p]; [discriminate|]. injection H as Hx Hp.
      change (x :: p) with ([x] ++ p). constructor; [|apply IH; auto].
      constructor. simpl. apply bool_decide_eq_true. exact Hx.
Qed.

(** Searching a plain pattern, ignoring case, is containment ignoring
    case. *)
Lemma search_plain pat r s :
  plain pat = true -> compile pat true = Pattern r ->
  search r s = PyStr.contains_icb s pat.
Proof.
  intros Hp Hc. rewrite compile_plain in Hc by exact Hp. injection Hc as <-.
  unfold search, PyStr.contains_icb. apply eq_true_iff_eq.
  rewrite search_chars_spec, occurs_ic_spec.
  split; intros (a & p & b & -> & H); exists a, p, b; split; auto.
  - inversion H; subst; [apply literal_seq_Matches; auto | inversion H3 ].
  - apply MBranchL, literal_seq_Matches; auto.
Qed.

End LiteralPatterns.

(** ** The lookup on a plain query *)

Module LookupFacts.
Import Re ReFacts PyStrFacts LiteralPatterns.

Lemma boolean_index_rows (g : Z * list cell -> bool) data :
  rows (boolean_index data (map g (rows data))) =
  filter (fun r => Is_true (g r)) (rows data).
Proof.
  unfold boolean_index. cbn [rows].
  induction (rows data) as [|r l IH]; [reflexivity|].
  cbn [map zip zip_with]. rewrite !filter_cons. cbn [snd].
  destruct (decide (Is_true (g r))); cbn [map fst]; rewrite IH; reflexivity.
Qed.

Lemma name_column_inv data names :
  name_column data = Return names ->
  exists j, positions "Producto" (columns data) 0 = [j] /\
            getitem "Producto" data = Return (OneColumn names) /\
            str_accessor (OneColumn names) = Return names /\
            values names = map (fun r => cell_at j (snd r)) (rows data).
Proof.
  unfold name_column, getitem.
  destruct (positions "Producto" (columns data) 0) as [|j [|? ?]] eqn:E;
    cbn [obind]; try discriminate.
  - intros H. exists j. split; [reflexivity|].
    assert (Hs : names = {| s_dtype := nth j (dtypes data) ObjectDtype;
                            values := map (fun r => cell_at j (snd r)) (rows data) |}).
    { cbn [str_accessor s_dtype values] in H.
      destruct (nth j (dtypes data) ObjectDtype); [|discriminate].
      destruct (_ || _); [|discriminate]. injection H as <-. reflexivity. }
    rewrite <- Hs in H. subst names. auto.
Qed.

Lemma str_contains_plain names q :
  plain q = true ->
  str_contains names q false false = Return (map (name_contains q) (values names)).
Proof.
  intros Hq. unfold str_contains. cbn [negb].
  rewrite (compile_plain q true Hq). f_equal.
  apply map_ext. intros [t| |z]; cbn [name_contains]; auto.
  apply search_plain; auto using compile_plain.
Qed.

(** On a plain query the lookup returns the first record whose name
    contains the query ignoring case. *)
Lemma get_product_info_plain q data names :
  plain q = true -> name_column data = Return names ->
  get_product_info q data = Return (first_containing q data).
Proof.
  intros Hq Hn. destruct (name_column_inv _ _ Hn) as (j & Hj & Hg & Hs & Hv).
  unfold get_product_info, first_containing, name_cell.
  rewrite Hg. cbn [obind]. rewrite Hs. cbn [obind].
  rewrite (str_contains_plain _ _ Hq), Hv, map_map, Hj. cbn [obind].
  rewrite (boolean_index_rows (fun r => name_contains q (cell_at j (snd r)))).
  destruct (filter _ (rows data)) as [|[i r] l]; reflexivity.
Qed.

Lemma first_containing_None q data :
  first_containing q data = None <->
  forall r t, r ∈ rows data -> name_cell data r = Text t ->
              ~ PyStr.contains_ignoring_case t q.
Proof.
  unfold first_containing. split.
  - destruct (filter _ (rows data)) as [|r0 l] eqn:E; [|discriminate].
    intros _ r t Hr Ht Hc.
    apply (filter_nil_not_elem_of _ _ r E); [|exact Hr].
    rewrite Ht. cbn [name_contains]. apply Is_true_true, contains_icb_spec, Hc.
  - intros H. destruct (filter _ (rows data)) as [|r0 l] eqn:E; [reflexivity|].
    assert (Hin : r0 ∈ filter (fun r => Is_true (name_contains q (name_cell data r)))
                             (rows data)) by (rewrite E; left).
    apply list_elem_of_filter in Hin as [Hm Hin].
    destruct (name_cell data r0) as [t| |z] eqn:Et; cbn [name_contains] in Hm;
      try contradiction.
    exfalso. apply (H r0 t Hin Et). apply contains_icb_spec, Is_true_true, Hm.
Qed.

End LookupFacts.

(* ===================================================================== *)
(** * The lookup engine *)
(* ===================================================================== *)

(** C2.  [get_product_info] reads the product name as a regular expression
    ([str.contains] with its default [regex=True]), not as a text to be
    contained.  The catalogue loaded from a sheet with the one product
    "Sika (Gris)" has a record whose name contains, ignoring case, the query
    "Sika (Gris)" (it is the name itself), yet the lookup of that query finds
    nothing, because the parentheses are read as a group; and the query
    "Sika (" raises [re.error].  On the catalogue of the specification the
    query "blue" does return the first of the two records. *)
Theorem get_product_info_reads_name_as_pattern :
  load_product_data (sample_sheet ["Sika (Gris)"]) = Return (sample_catalog ["Sika (Gris)"]) /\
  first_containing "Sika (Gris)" (sample_catalog ["Sika (Gris)"])
    = Some (sample_record 1 "Sika (Gris)") /\
  get_product_info "Sika (Gris)" (sample_catalog ["Sika (Gris)"]) = Return None /\
  get_product_info "Sika (" (sample_catalog ["Sika (Gris)"]) = Raise ReError /\
  get_product_info "blue" (sample_catalog ["Blue Paint"; "Blue Paint Extra"])
    = Return (Some (sample_record 1 "Blue Paint")).
Proof. repeat split; vm_compute; reflexivity. Qed.

(** C8.  The upper-cased and the lower-cased query do not always give the
    same result, because the query is read as a regular expression: the
    upper-casing of the class [\d] (a digit) is the class [\D] (not a
    digit).  On the catalogue of the products "Sellador" and
    "Sellador 2000" the query "\D" finds the first and the query "\d" the
    second. *)
Theorem get_product_info_upper_lower_differ :
  PyStr.upper "\d" = Some "\D" /\ PyStr.lower "\d" = "\d" /\
  load_product_data (sample_sheet ["Sellador"; "Sellador 2000"])
    = Return (sample_catalog ["Sellador"; "Sellador 2000"]) /\
  get_product_info "\D" (sample_catalog ["Sellador"; "Sellador 2000"])
    = Return (Some (sample_record 1 "Sellador")) /\
  get_product_info "\d" (sample_catalog ["Sellador"; "Sellador 2000"])
    = Return (Some (sample_record 2 "Sellador 2000")).
Proof. repeat split; vm_compute; reflexivity. Qed.

(** C5, the claim as stated fails: the empty query, and a query of one
    space, are found in the catalogue of "Blue Paint" and "Blue Paint
    Extra"; both return the first record. *)
Lemma get_product_info_empty_query_found :
  get_product_info "" (sample_catalog ["Blue Paint"; "Blue Paint Extra"])
    = Return (Some (sample_record 1 "Blue Paint")) /\
  get_product_info " " (sample_catalog ["Blue Paint"; "Blue Paint Extra"])
    = Return (Some (sample_record 1 "Blue Paint")).
Proof. split; vm_compute; reflexivity. Qed.

(** C5, amended.  On a catalogue whose name column can be searched, a
    query without special characters never raises, and it yields [None]
    exactly when no record has a name that is a text containing the query
    ignoring case.  So "nonexistent-xyz" yields [None] exactly when no name
    contains it, and the empty query, which every text contains, yields
    [None] exactly when no record has a text for a name; white space is
    matched like any other text. *)
Theorem get_product_info_not_found (c : DataFrame) (names : Series) :
  name_column c = Return names ->
  (forall q, Re.plain q = true ->
     (exists found, get_product_info q c = Return found) /\
     (get_product_info q c = Return None <->
      forall r t, r ∈ rows c -> name_cell c r = Text t ->
                  ~ PyStr.contains_ignoring_case t q)) /\
  (get_product_info "nonexistent-xyz" c = Return None <->
   forall r t, r ∈ rows c -> name_cell c r = Text t ->
               ~ PyStr.contains_ignoring_case t "nonexistent-xyz") /\
  (get_product_info "" c = Return None <->
   forall r, r ∈ rows c -> is_text (name_cell c r) = false).
Proof.
  intros Hn.
  assert (H : forall q, Re.plain q = true ->
     (exists found, get_product_info q c = Return found) /\
     (get_product_info q c = Return None <->
      forall r t, r ∈ rows c -> name_cell c r = Text t ->
                  ~ PyStr.contains_ignoring_case t q)).
  { intros q Hq. rewrite (LookupFacts.get_product_info_plain q c names Hq Hn).
    split; [eauto|]. rewrite <- LookupFacts.first_containing_None.
    split; [intros [= ->]; reflexivity | intros ->; reflexivity]. }
  split; [exact H|]. split; [apply H; reflexivity|].
  destruct (H "" eq_refl) as [_ ->]. split.
  - intros Hno r Hr. destruct (name_cell c r) as [t| |z] eqn:E; auto.
    destruct (Hno r t Hr E). apply PyStrFacts.contains_ignoring_case_empty.
  - intros Hno r t Hr E. specialize (Hno r Hr). rewrite E in Hno. discriminate.
Qed.

Lemma get_product_info_not_found_witness :
  (forall q, Re.plain q = true ->
     (exists found,
        get_product_info q (sample_catalog ["Blue Paint"; "Blue Paint Extra"]) = Return found) /\
     (get_product_info q (sample_catalog ["Blue Paint"; "Blue Paint Extra"]) = Return None <->
      forall r t, r ∈ rows (sample_catalog ["Blue Paint"; "Blue Paint Extra"]) ->
                  name_cell (sample_catalog ["Blue Paint"; "Blue Paint Extra"]) r = Text t ->
                  ~ PyStr.contains_ignoring_case t q)) /\
  (get_product_info "nonexistent-xyz" (sample_catalog ["Blue Paint"; "Blue Paint Extra"])
     = Return None <->
   forall r t, r ∈ rows (sample_catalog ["Blue Paint"; "Blue Paint Extra"]) ->
               name_cell (sample_catalog ["Blue Paint"; "Blue Paint Extra"]) r = Text t ->
               ~ PyStr.contains_ignoring_case t "nonexistent-xyz") /\
  (get_product_info "" (sample_catalog ["Blue Paint"; "Blue Paint Extra"]) = Return None <->
   forall r, r ∈ rows (sample_catalog ["Blue Paint"; "Blue Paint Extra"]) ->
             is_text (name_cell (sample_catalog ["Blue Paint"; "Blue Paint Extra"]) r) = false).
Proof.
  apply (get_product_info_not_found
           (sample_catalog ["Blue Paint"; "Blue Paint Extra"])
           {| s_dtype := ObjectDtype;
              values := [Text "Blue Paint"; Text "Blue Paint Extra"] |}).
  vm_compute. reflexivity.
Defined.

(* ===================================================================== *)
(** * The product catalogue *)
(* ===================================================================== *)

Module LoadFacts.

Lemma seqZ_of_nat_S m n :
  seqZ m (Z.of_nat (S n)) = m :: seqZ (Z.succ m) (Z.of_nat n).
Proof. rewrite seqZ_cons by lia. f_equal. f_equal. lia. Qed.

Lemma labelled_snd {A : Type} m (l : list A) :
  map snd (zip (seqZ m (Z.of_nat (length l))) l) = l.
Proof.
  revert m. induction l as [|x l IH]; intros m; [reflexivity|].
  cbn [length]. rewrite seqZ_of_nat_S. cbn [zip zip_with map snd].
  f_equal. apply IH.
Qed.

Lemma labelled_fst {A : Type} m (l : list A) :
  map fst (zip (seqZ m (Z.of_nat (length l))) l) = seqZ m (Z.of_nat (length l)).
Proof.
  revert m. induction l as [|x l IH]; intros m; [reflexivity|].
  cbn [length]. rewrite seqZ_of_nat_S. cbn [zip zip_with map fst].
  f_equal. apply IH.
Qed.

Lemma labelled_ge {A : Type} m n (l : list A) r :
  r ∈ zip (seqZ m n) l -> m <= fst r.
Proof.
  destruct r as [i x]. intros H. apply elem_of_zip_l, elem_of_seqZ in H.
  cbn [fst]. lia.
Qed.

Lemma range_index_snd {A : Type} (l : list A) : map snd (range_index l) = l.
Proof. apply labelled_snd. Qed.

Lemma range_index_fst {A : Type} (l : list A) :
  map fst (range_index l) = seqZ 0 (Z.of_nat (length l)).
Proof. apply labelled_fst. Qed.

Lemma filter_all {A : Type} (P : A -> Prop) `{!forall x, Decision (P x)} (l : list A) :
  (forall x, x ∈ l -> P x) -> filter P l = l.
Proof.
  induction l as [|x l IH]; intros Hall; [reflexivity|].
  rewrite filter_cons_True by (apply Hall; left).
  f_equal. apply IH. intros y Hy. apply Hall. right. exact Hy.
Qed.

(** [df.drop(0)] on freshly read rows removes the first one. *)
Lemma drop_first header dts (first : list cell) rest :
  drop 0 {| columns := header; dtypes := dts; rows := range_index (first :: rest) |} =
  Return {| columns := header; dtypes := dts;
            rows := zip (seqZ 1 (Z.of_nat (length rest))) rest |}.
Proof.
  unfold drop, range_index. cbn [rows columns dtypes length].
  rewrite seqZ_of_nat_S. cbn [zip zip_with existsb fst orb Z.eqb].
  f_equal. f_equal. rewrite filter_cons_False by (cbn; auto).
  apply filter_all. intros r Hr. apply labelled_ge in Hr. lia.
Qed.

(** What [load_product_data] returns on a sheet with six columns and a
    first row. *)
Lemma load_product_data_sheet header first rest :
  length header = 6%nat ->
  load_product_data (Sheet header (first :: rest)) =
  Return {| columns := product_columns;
            dtypes := map (fun j => column_dtype (map (cell_at j) (first :: rest)))
                          (seq 0 (length header));
            rows := range_index rest |}.
Proof.
  intros Hh. unfold load_product_data, read_excel, set_columns.
  cbn [obind columns dtypes rows]. rewrite Hh.
  rewrite bool_decide_eq_true_2 by reflexivity. cbn [obind].
  rewrite drop_first. cbn [obind]. unfold reset_index. cbn [columns dtypes rows].
  rewrite labelled_snd. reflexivity.
Qed.

Lemma load_product_data_columns file_path catalog :
  load_product_data file_path = Return catalog -> columns catalog = product_columns.
Proof.
  unfold load_product_data.
  destruct (read_excel file_path) as [df| |]; cbn [obind]; try discriminate.
  unfold set_columns. destruct (bool_decide _); cbn [obind]; try discriminate.
  unfold drop. cbn [rows columns dtypes]. destruct (existsb _ _); cbn [obind]; try discriminate.
  intros [= <-]. reflexivity.
Qed.

(** The dictionary of a row under the product labels. *)
Lemma to_dict_product_columns r :
  to_dict product_columns r =
  <["Recomendaciones de Uso" := cell_at 5 r]>
    (<[Aplicacion := cell_at 4 r]>
       (<["Beneficios" := cell_at 3 r]>
          (<[Descripcion := cell_at 2 r]>
             (<["Producto" := cell_at 1 r]>
                (<["Index" := cell_at 0 r]> ∅))))).
Proof. reflexivity. Qed.

Lemma to_dict_dom r :
  dom (to_dict product_columns r) = list_to_set product_columns.
Proof.
  rewrite to_dict_product_columns, !dom_insert_L, dom_empty_L.
  cbn [product_columns list_to_set]. set_solver.
Qed.

Lemma to_dict_prompt r q :
  exists prompt, build_prompt (to_dict product_columns r) q = Return prompt.
Proof.
  unfold build_prompt, subscript. rewrite to_dict_product_columns.
  repeat (rewrite lookup_insert_eq || (rewrite lookup_insert_ne by (vm_compute; discriminate))).
  cbn [obind]. eauto.
Qed.

End LoadFacts.

Module RecordFacts.

Lemma boolean_index_subset data mask r :
  r ∈ rows (boolean_index data mask) -> r ∈ rows data.
Proof.
  unfold boolean_index. cbn [rows]. revert mask.
  induction (rows data) as [|x l IH]; intros [|b m]; cbn [zip zip_with];
    rewrite ?filter_nil; cbn [map]; try (intros H; inversion H; fail).
  rewrite filter_cons. destruct (decide _); cbn [map fst].
  - rewrite !elem_of_cons. intros [->|H]; [left; reflexivity | right; eauto].
  - intros H. right. eauto.
Qed.

(** A record that the lookup returns is the dictionary of a row of the
    catalogue. *)
Lemma get_product_info_Some name data info :
  get_product_info name data = Return (Some info) ->
  exists r, r ∈ rows data /\ info = to_dict (columns data) (snd r).
Proof.
  unfold get_product_info.
  destruct (getitem "Producto" data) as [col| |]; cbn [obind]; try discriminate.
  destruct (str_accessor col) as [names| |]; cbn [obind]; try discriminate.
  destruct (str_contains names name false false) as [mask| |]; cbn [obind];
    try discriminate.
  destruct (rows (boolean_index data mask)) as [|[i r] l] eqn:E; [discriminate|].
  intros [= <-]. exists (i, r). split; [|reflexivity].
  apply (boolean_index_subset data mask). rewrite E. left.
Qed.

End RecordFacts.

(** C4.  A sheet with six columns whose body is the reserved first row
    followed by N data rows (N >= 0) loads into a catalogue of exactly
    those N rows, in the order of the sheet and relabelled 0 .. N-1; the
    reserved row is not among them.  With N = 0 the catalogue is empty, and
    the call still returns. *)
Theorem load_product_data_rows (header : list string) (sentinel : list cell)
    (data : list (list cell)) :
  length header = 6%nat ->
  exists catalog,
    load_product_data (Sheet header (sentinel :: data)) = Return catalog /\
    columns catalog = product_columns /\
    map snd (rows catalog) = data /\
    map fst (rows catalog) = seqZ 0 (Z.of_nat (length data)) /\
    length (rows catalog) = length data.
Proof.
  intros Hh. eexists. split; [apply LoadFacts.load_product_data_sheet, Hh|].
  cbn [columns rows]. split; [reflexivity|].
  split; [apply LoadFacts.range_index_snd|].
  split; [apply LoadFacts.range_index_fst|].
  rewrite <- (length_map snd), LoadFacts.range_index_snd. reflexivity.
Qed.

Lemma load_product_data_rows_witness :
  exists catalog,
    load_product_data
      (Sheet sample_header [reserved_row; sample_row 1 "Blue Paint";
                            sample_row 2 "Blue Paint Extra"]) = Return catalog /\
    columns catalog = product_columns /\
    map snd (rows catalog) = [sample_row 1 "Blue Paint"; sample_row 2 "Blue Paint Extra"] /\
    map fst (rows catalog) = seqZ 0 (Z.of_nat 2) /\
    length (rows catalog) = 2%nat.
Proof.
  apply (load_product_data_rows sample_header reserved_row
           [sample_row 1 "Blue Paint"; sample_row 2 "Blue Paint Extra"]).
  reflexivity.
Defined.

(** C6, the claim as stated fails: a readable sheet with seven columns (at
    least six) is refused, because the six labels are assigned to all the
    columns of the frame. *)
Lemma load_product_data_seven_columns :
  (6 <= length (sample_header ++ ["S"]))%nat /\
  load_product_data
    (Sheet (sample_header ++ ["S"])
           [reserved_row ++ [NaN]; sample_row 1 "Blue Paint" ++ [Text "extra"]])
  = Raise ValueError.
Proof. split; [cbn; lia | reflexivity]. Qed.

(** C6, amended.  [load_product_data] returns on every readable sheet with
    exactly six columns and a first row after the header; in the catalogue
    the six cells of a row are the record's index (not used), name,
    description, benefits, application and usage recommendations.  It
    raises when the file is missing, when it cannot be read as a sheet, and
    when the sheet has fewer or more than six columns. *)
Theorem load_product_data_outcome :
  (forall header first rest, length header = 6%nat ->
     exists catalog,
       load_product_data (Sheet header (first :: rest)) = Return catalog /\
       map snd (rows catalog) = rest /\
       forall i n d b a u,
         [i; n; d; b; a; u] ∈ rest ->
         let record := to_dict (columns catalog) [i; n; d; b; a; u] in
         record !! "Index" = Some i /\
         record !! "Producto" = Some n /\
         record !! Descripcion = Some d /\
         record !! "Beneficios" = Some b /\
         record !! Aplicacion = Some a /\
         record !! "Recomendaciones de Uso" = Some u) /\
  load_product_data Missing = Raise FileNotFoundError /\
  load_product_data NotASheet = Raise ReadError /\
  (forall header body, length header <> 6%nat ->
     load_product_data (Sheet header body) = Raise ValueError).
Proof.
  split; [|split; [reflexivity|split; [reflexivity|]]].
  - intros header first rest Hh. eexists.
    split; [apply LoadFacts.load_product_data_sheet, Hh|].
    cbn [columns rows]. split; [apply LoadFacts.range_index_snd|].
    intros i n d b a u _. repeat split; reflexivity.
  - intros header body Hh. unfold load_product_data, read_excel, set_columns.
    cbn [obind columns].
    rewrite bool_decide_eq_false_2; [reflexivity|].
    cbn [product_columns length]. congruence.
Qed.

Lemma load_product_data_outcome_witness :
  (exists catalog,
     load_product_data (sample_sheet ["Blue Paint"]) = Return catalog /\
     map snd (rows catalog) = [sample_row 1 "Blue Paint"]) /\
  load_product_data (Sheet ["N"; "P"; "D"; "B"; "A"] [[NaN; NaN; NaN; NaN; NaN]])
  = Raise ValueError.
Proof.
  split.
  - destruct (proj1 load_product_data_outcome sample_header reserved_row
                [sample_row 1 "Blue Paint"] eq_refl) as (catalog & Hl & Hr & _).
    exists catalog. split; assumption.
  - apply (proj2 (proj2 (proj2 load_product_data_outcome))). cbn. lia.
Defined.

(** C10.  Every record of a catalogue that [load_product_data] returned,
    whether it is taken from a row or returned by [get_product_info], has
    exactly the six keys Index, Producto, Descripción, Beneficios,
    Aplicación and Recomendaciones de Uso, so the five accesses of the
    prompt template are defined and [build_prompt] returns. *)
Theorem loaded_records_have_the_six_keys (file_path : source) (catalog : DataFrame) :
  load_product_data file_path = Return catalog ->
  (forall r, r ∈ rows catalog ->
     dom (to_dict (columns catalog) (snd r)) = list_to_set product_columns /\
     forall question, exists prompt,
       build_prompt (to_dict (columns catalog) (snd r)) question = Return prompt) /\
  (forall name info, get_product_info name catalog = Return (Some info) ->
     dom info = list_to_set product_columns /\
     forall question, exists prompt, build_prompt info question = Return prompt).
Proof.
  intros Hl. apply LoadFacts.load_product_data_columns in Hl.
  split.
  - intros r _. rewrite Hl.
    split; [apply LoadFacts.to_dict_dom | intros q; apply LoadFacts.to_dict_prompt].
  - intros name info Hg.
    apply RecordFacts.get_product_info_Some in Hg as (r & _ & ->). rewrite Hl.
    split; [apply LoadFacts.to_dict_dom | intros q; apply LoadFacts.to_dict_prompt].
Qed.

Lemma loaded_records_have_the_six_keys_witness :
  (forall r, r ∈ rows (sample_catalog ["Blue Paint"]) ->
     dom (to_dict (columns (sample_catalog ["Blue Paint"])) (snd r))
       = list_to_set product_columns /\
     forall question, exists prompt,
       build_prompt (to_dict (columns (sample_catalog ["Blue Paint"])) (snd r)) question
         = Return prompt) /\
  (forall name info,
     get_product_info name (sample_catalog ["Blue Paint"]) = Return (Some info) ->
     dom info = list_to_set product_columns /\
     forall question, exists prompt, build_prompt info question = Return prompt).
Proof.
  apply (loaded_records_have_the_six_keys (sample_sheet ["Blue Paint"])).
  vm_compute. reflexivity.
Defined.

(* ===================================================================== *)
(** * The prompt and response pipeline *)
(* ===================================================================== *)

Module PipelineFacts.
Import PyStr PyStrFacts.

Lemma app_assoc_string (a b c : string) : (a +:+ b) +:+ c = a +:+ (b +:+ c).
Proof. apply chars_inj. rewrite !chars_app. symmetry. apply app_assoc. Qed.

Lemma contains_here x rest : contains (x +:+ rest) x.
Proof. exists "", rest. reflexivity. Qed.

Lemma contains_end x : contains x x.
Proof.
  exists "", "". apply chars_inj. rewrite !chars_app. cbn. rewrite app_nil_r. reflexivity.
Qed.

Lemma contains_later p s x : contains s x -> contains (p +:+ s) x.
Proof.
  intros (pre & post & ->). exists (p +:+ pre), post.
  rewrite app_assoc_string. reflexivity.
Qed.

Lemma app_not_empty (p e : string) : p <> "" -> p +:+ e <> "".
Proof.
  intros Hp H. apply (f_equal chars) in H. rewrite chars_app in H.
  destruct p; [congruence | discriminate].
Qed.

(** *** [str.strip] *)

Lemma lstrip_chars_spec l :
  exists ws, l = ws ++ lstrip_chars l /\ forallb isspace ws = true /\
             forall c, head (lstrip_chars l) = Some c -> isspace c = false.
Proof.
  induction l as [|x l (ws & Hl & Hws & Hh)]; simpl.
  - exists []. repeat split; auto. discriminate.
  - destruct (isspace x) eqn:E.
    + exists (x :: ws). simpl. rewrite E, Hws, <- Hl. auto.
    + exists []. repeat split; auto. simpl. congruence.
Qed.

Lemma rstrip_chars_spec l :
  exists ws, l = rstrip_chars l ++ ws /\ forallb isspace ws = true /\
             (forall c, last (rstrip_chars l) = Some c -> isspace c = false) /\
             (rstrip_chars l <> [] -> head (rstrip_chars l) = head l).
Proof.
  induction l as [|x l (ws & Hl & Hws & Hlast & Hhead)]; cbn [rstrip_chars].
  - exists []. split; [reflexivity|]. split; [reflexivity|].
    split; [discriminate | congruence].
  - destruct (rstrip_chars l) as [|y r] eqn:Er.
    + cbn [app] in Hl. subst ws. destruct (isspace x) eqn:E.
      * exists (x :: l). split; [reflexivity|].
        split; [cbn [forallb]; rewrite E, Hws; reflexivity|].
        split; [discriminate | congruence].
      * exists l. split; [reflexivity|]. split; [exact Hws|].
        split; [|reflexivity]. intros c [= <-]. exact E.
    + exists ws. split; [rewrite Hl at 1; reflexivity|]. split; [exact Hws|].
      split; [|reflexivity]. intros c Hc. apply Hlast. exact Hc.
Qed.

Lemma strip_trimmed content : trimmed_of content (strip content).
Proof.
  unfold trimmed_of, strip. rewrite chars_of_chars.
  destruct (lstrip_chars_spec (chars content)) as (l & Hl & Hlw & Hh).
  destruct (rstrip_chars_spec (lstrip_chars (chars content))) as (r & Hr & Hrw & Hlast & Hhead).
  exists l, r. repeat split; auto.
  - rewrite <- Hr. exact Hl.
  - intros c Hc. apply Hh. rewrite <- Hhead; [exact Hc|].
    intros E. rewrite E in Hc. discriminate.
Qed.

(** *** The pipeline *)

Lemma build_prompt_defined info question :
  (forall key, key ∈ prompt_keys -> is_Some (info !! key)) ->
  exists prompt, build_prompt info question = Return prompt.
Proof.
  intros H. unfold build_prompt, subscript.
  destruct (H "Producto") as [v1 ->]; [set_solver|].
  destruct (H Descripcion) as [v2 ->]; [set_solver|].
  destruct (H "Beneficios") as [v3 ->]; [set_solver|].
  destruct (H Aplicacion) as [v4 ->]; [set_solver|].
  destruct (H "Recomendaciones de Uso") as [v5 ->]; [set_solver|].
  cbn [obind]. eauto.
Qed.

Lemma generate_chatbot_response_spec create info question prompt st :
  build_prompt info question = Return prompt ->
  generate_chatbot_response create info question st =
  ({| session_state := session_state st;
      trace := trace st ++ [ApiRequest (chat_request prompt)] |},
   Return (answer_of (create (chat_request prompt)))).
Proof.
  intros H. unfold generate_chatbot_response, bind, lift, emit, ret. rewrite H.
  unfold answer_of. generalize (create (chat_request prompt)).
  intros [content|e|e]; reflexivity.
Qed.

Lemma generate_chatbot_response_raises create info question st :
  (forall prompt, build_prompt info question <> Return prompt) ->
  exists o, generate_chatbot_response create info question st = (st, o) /\
            forall answer, o <> Return answer.
Proof.
  intros H. unfold generate_chatbot_response, bind, lift.
  destruct (build_prompt info question) as [prompt|e|].
  - destruct (H prompt). reflexivity.
  - eexists. split; [reflexivity | discriminate].
  - eexists. split; [reflexivity | discriminate].
Qed.

End PipelineFacts.

(** C1.  On a record that has the five fields of the prompt,
    [generate_chatbot_response] returns a text whatever the service does;
    it never raises.  When the call fails (an [OpenAIError] or any other
    exception in the [try] block) the text returned is the Spanish error
    sentence followed by the text of the exception, and it is not empty. *)
Theorem generate_chatbot_response_never_raises
    (create : request -> api_outcome) (info : gmap string cell)
    (question : string) (st : state) :
  (forall key, key ∈ prompt_keys -> is_Some (info !! key)) ->
  exists prompt answer st',
    build_prompt info question = Return prompt /\
    generate_chatbot_response create info question st = (st', Return answer) /\
    match create (chat_request prompt) with
    | Completion _ => True
    | OpenAIError e =>
        answer = latin1 "Ocurrió un error al procesar tu solicitud: " +:+ e /\
        PyStr.contains answer e /\ answer <> ""
    | OtherException e =>
        answer = latin1 "Ocurrió un error inesperado: " +:+ e /\
        PyStr.contains answer e /\ answer <> ""
    end.
Proof.
  intros Hkeys.
  destruct (PipelineFacts.build_prompt_defined info question Hkeys) as [prompt Hp].
  exists prompt, (answer_of (create (chat_request prompt))). eexists.
  split; [exact Hp|].
  split; [apply PipelineFacts.generate_chatbot_response_spec, Hp|].
  unfold answer_of. destruct (create (chat_request prompt)) as [content|e|e]; [exact I| |].
  - split; [reflexivity|].
    split; [apply PipelineFacts.contains_later, PipelineFacts.contains_end|].
    apply PipelineFacts.app_not_empty. vm_compute. discriminate.
  - split; [reflexivity|].
    split; [apply PipelineFacts.contains_later, PipelineFacts.contains_end|].
    apply PipelineFacts.app_not_empty. vm_compute. discriminate.
Qed.

Lemma generate_chatbot_response_never_raises_witness :
  exists prompt answer st',
    build_prompt (sample_record 1 "Sealant X") "How do I apply it?" = Return prompt /\
    generate_chatbot_response (fun _ => OtherException "Request timed out")
      (sample_record 1 "Sealant X") "How do I apply it?" initial = (st', Return answer) /\
    match (fun _ : request => OtherException "Request timed out") (chat_request prompt) with
    | Completion _ => True
    | OpenAIError e =>
        answer = latin1 "Ocurrió un error al procesar tu solicitud: " +:+ e /\
        PyStr.contains answer e /\ answer <> ""
    | OtherException e =>
        answer = latin1 "Ocurrió un error inesperado: " +:+ e /\
        PyStr.contains answer e /\ answer <> ""
    end.
Proof.
  apply (generate_chatbot_response_never_raises
           (fun _ => OtherException "Request timed out")
           (sample_record 1 "Sealant X") "How do I apply it?" initial).
  apply Forall_forall. repeat constructor; vm_compute; eexists; reflexivity.
Defined.

(** C7.  For a record whose five fields are texts, the prompt is the fixed
    template with the five texts and the question put in; it contains each
    of them.  The run sends one request: the model, the fixed Spanish system
    message and the prompt as the user message, at most 500 tokens,
    temperature 0.7.  When the call returns a content, the answer is that
    content with the white space at its two ends removed. *)
Theorem generate_chatbot_response_request
    (create : request -> api_outcome) (info : gmap string cell) (st : state)
    (producto descripcion beneficios aplicacion recomendaciones question : string) :
  info !! "Producto" = Some (Text producto) ->
  info !! Descripcion = Some (Text descripcion) ->
  info !! "Beneficios" = Some (Text beneficios) ->
  info !! Aplicacion = Some (Text aplicacion) ->
  info !! "Recomendaciones de Uso" = Some (Text recomendaciones) ->
  let prompt :=
    "Eres un asistente que ayuda a responder preguntas sobre productos. "
    +:+ latin1 "Usa únicamente la siguiente información para tu respuesta en español."
    +:+ nl +:+ nl
    +:+ "**Nombre del Producto**: " +:+ producto +:+ nl
    +:+ latin1 "**Descripción**: " +:+ descripcion +:+ nl
    +:+ "**Beneficios**: " +:+ beneficios +:+ nl
    +:+ latin1 "**Aplicación**: " +:+ aplicacion +:+ nl
    +:+ "**Recomendaciones de Uso**: " +:+ recomendaciones +:+ nl +:+ nl
    +:+ "**Pregunta del Usuario**: " +:+ question +:+ nl
    +:+ "**Respuesta**:" in
  let sent :=
    {| model := "gpt-4o-2024-08-06";
       messages :=
         [("system", latin1 "Eres un asistente útil y responde siempre en español.");
          ("user", prompt)];
       max_tokens := 500;
       temperature := 7 # 10 |} in
  build_prompt info question = Return prompt /\
  PyStr.contains prompt producto /\ PyStr.contains prompt descripcion /\
  PyStr.contains prompt beneficios /\ PyStr.contains prompt aplicacion /\
  PyStr.contains prompt recomendaciones /\ PyStr.contains prompt question /\
  trace (fst (generate_chatbot_response create info question st))
    = trace st ++ [ApiRequest sent] /\
  forall content, create sent = Completion content ->
    snd (generate_chatbot_response create info question st)
      = Return (PyStr.strip content) /\
    trimmed_of content (PyStr.strip content).
Proof.
  intros H1 H2 H3 H4 H5 prompt sent.
  assert (Hp : build_prompt info question = Return prompt).
  { unfold build_prompt, subscript. rewrite H1, H2, H3, H4, H5. reflexivity. }
  split; [exact Hp|].
  do 6 (split; [unfold prompt;
    repeat first [apply PipelineFacts.contains_here | apply PipelineFacts.contains_later]|]).
  rewrite (PipelineFacts.generate_chatbot_response_spec create info question prompt st Hp).
  cbn [fst snd trace]. split; [reflexivity|].
  intros content Hcontent. change (chat_request prompt) with sent. rewrite Hcontent.
  split; [reflexivity | apply PipelineFacts.strip_trimmed].
Qed.

Lemma generate_chatbot_response_request_witness :
  let prompt :=
    "Eres un asistente que ayuda a responder preguntas sobre productos. "
    +:+ latin1 "Usa únicamente la siguiente información para tu respuesta en español."
    +:+ nl +:+ nl
    +:+ "**Nombre del Producto**: " +:+ "Sealant X" +:+ nl
    +:+ latin1 "**Descripción**: " +:+ "D" +:+ nl
    +:+ "**Beneficios**: " +:+ "B" +:+ nl
    +:+ latin1 "**Aplicación**: " +:+ "A" +:+ nl
    +:+ "**Recomendaciones de Uso**: " +:+ "U" +:+ nl +:+ nl
    +:+ "**Pregunta del Usuario**: " +:+ "How do I apply it?" +:+ nl
    +:+ "**Respuesta**:" in
  let sent :=
    {| model := "gpt-4o-2024-08-06";
       messages :=
         [("system", latin1 "Eres un asistente útil y responde siempre en español.");
          ("user", prompt)];
       max_tokens := 500;
       temperature := 7 # 10 |} in
  let create := fun _ : request => Completion "  Apply with a brush.  " in
  build_prompt (sample_record 1 "Sealant X") "How do I apply it?" = Return prompt /\
  PyStr.contains prompt "Sealant X" /\ PyStr.contains prompt "D" /\
  PyStr.contains prompt "B" /\ PyStr.contains prompt "A" /\
  PyStr.contains prompt "U" /\ PyStr.contains prompt "How do I apply it?" /\
  trace (fst (generate_chatbot_response create (sample_record 1 "Sealant X")
                "How do I apply it?" initial))
    = trace initial ++ [ApiRequest sent] /\
  forall content, create sent = Completion content ->
    snd (generate_chatbot_response create (sample_record 1 "Sealant X")
           "How do I apply it?" initial)
      = Return (PyStr.strip content) /\
    trimmed_of content (PyStr.strip content).
Proof.
  apply (generate_chatbot_response_request
           (fun _ => Completion "  Apply with a brush.  ")
           (sample_record 1 "Sealant X") initial
           "Sealant X" "D" "B" "A" "U" "How do I apply it?");
    vm_compute; reflexivity.
Defined.

(* ===================================================================== *)
(** * The script run and the history *)
(* ===================================================================== *)

Module ScriptFacts.

Lemma api_requests_app l k : api_requests (l ++ k) = api_requests l ++ api_requests k.
Proof. unfold api_requests. apply omap_app. Qed.

Lemma init_conversation_spec st :
  exists st1, init_conversation st = (st1, Return tt) /\
              session_state st1 !! "conversation" = Some (history st) /\
              trace st1 = trace st.
Proof.
  unfold init_conversation, history.
  destruct (session_state st !! "conversation") as [conv|] eqn:E.
  - exists st. auto.
  - eexists. split; [reflexivity|]. cbn [session_state trace default].
    rewrite lookup_insert_eq. auto.
Qed.

Lemma on_submit_spec create data w st conv :
  session_state st !! "conversation" = Some conv ->
  exists st' o,
    on_submit create data w st = (st', o) /\
    match submitted create data w with
    | Some (e, r) =>
        o = Return tt /\
        session_state st' !! "conversation" = Some (conv ++ [e]) /\
        api_requests (trace st') = api_requests (trace st) ++ [r]
    | None =>
        session_state st' !! "conversation" = Some conv /\
        api_requests (trace st') = api_requests (trace st)
    end.
Proof.
  intros Hconv. unfold on_submit, submitted.
  destruct (bool_decide (user_question w = "")).
  { eexists _, _. split; [reflexivity|]. cbn [session_state trace].
    rewrite api_requests_app, app_nil_r. auto. }
  unfold bind at 1. unfold lift at 1.
  destruct (lookup_selected (selected_product w) data) as [[info|]|e|].
  - destruct (bool_decide (info = ∅)).
    { eexists _, _. split; [reflexivity|]. cbn [session_state trace].
      rewrite api_requests_app, app_nil_r. auto. }
    destruct (build_prompt info (user_question w)) as [prompt|e|] eqn:Ep.
    + unfold bind at 1.
      rewrite (PipelineFacts.generate_chatbot_response_spec _ _ _ _ _ Ep).
      unfold append, conversation, set_conversation, emit, bind.
      cbn [session_state trace]. rewrite Hconv. cbn [session_state trace].
      eexists _, _. split; [reflexivity|]. cbn [session_state trace].
      rewrite lookup_insert_eq, !api_requests_app, app_nil_r. auto.
    + unfold bind at 1, generate_chatbot_response, bind, lift. rewrite Ep.
      eexists _, _. split; [reflexivity|]. auto.
    + unfold bind at 1, generate_chatbot_response, bind, lift. rewrite Ep.
      eexists _, _. split; [reflexivity|]. auto.
  - eexists _, _. split; [reflexivity|]. cbn [session_state trace].
    rewrite api_requests_app, app_nil_r. auto.
  - eexists _, _. split; [reflexivity|]. auto.
  - eexists _, _. split; [reflexivity|]. auto.
Qed.

Lemma limit_history_spec st conv :
  session_state st !! "conversation" = Some conv ->
  exists st', limit_history st = (st', Return tt) /\
              history st' = (if bool_decide (MAX_HISTORY < length conv)%nat
                             then tail conv else conv) /\
              trace st' = trace st.
Proof.
  intros Hconv. unfold limit_history, bind, conversation. rewrite Hconv.
  destruct (bool_decide (MAX_HISTORY < length conv)%nat).
  - eexists. split; [reflexivity|]. unfold history. cbn [session_state trace].
    rewrite lookup_insert_eq. auto.
  - exists st. split; [reflexivity|]. unfold history. rewrite Hconv. auto.
Qed.

Lemma tail_app_entry (conv : list (string * string)) e :
  length conv = MAX_HISTORY -> tail (conv ++ [e]) = tail conv ++ [e].
Proof. destruct conv; [discriminate | reflexivity]. Qed.

(** What a run does to the history and to the requests sent. *)
Lemma script_spec create data w st :
  (length (history st) <= MAX_HISTORY)%nat ->
  history (fst (script create data w st)) =
    match answered create data w with
    | Some (e, _) => appended (history st) e
    | None => history st
    end /\
  api_requests (trace (fst (script create data w st))) =
    api_requests (trace st) ++
    match answered create data w with
    | Some (_, r) => [r]
    | None => []
    end.
Proof.
  intros Hlen.
  cut (exists st' o, script create data w st = (st', o) /\
         history st' =
           match answered create data w with
           | Some (e, _) => appended (history st) e
           | None => history st
           end /\
         api_requests (trace st') =
           api_requests (trace st) ++
           match answered create data w with
           | Some (_, r) => [r]
           | None => []
           end).
  { intros (st' & o & -> & H). exact H. }
  unfold script, answered. unfold bind at 1. unfold lift at 1.
  destruct (product_names data) as [ns|e|];
    try (eexists _, _; split; [reflexivity|]; rewrite app_nil_r; auto; fail).
  unfold bind at 1.
  destruct (init_conversation_spec st) as (st1 & -> & Hc1 & Ht1).
  unfold bind at 1.
  assert (Hsmall : bool_decide (MAX_HISTORY < length (history st))%nat = false)
    by (apply bool_decide_eq_false; lia).
  destruct (button w).
  - destruct (on_submit_spec create data w st1 _ Hc1) as (st2 & o & -> & Hs).
    destruct (submitted create data w) as [[e r]|].
    + destruct Hs as (-> & Hc2 & Ht2).
      destruct (limit_history_spec st2 _ Hc2) as (st3 & -> & Hh3 & Ht3).
      eexists _, _. split; [reflexivity|].
      rewrite Hh3, Ht3, Ht2, Ht1. split; [|reflexivity].
      unfold appended. rewrite length_app. cbn [length].
      destruct (decide (length (history st) < MAX_HISTORY)%nat).
      * rewrite bool_decide_eq_false_2 by lia.
        rewrite bool_decide_eq_true_2 by assumption. reflexivity.
      * rewrite bool_decide_eq_true_2 by lia.
        rewrite bool_decide_eq_false_2 by assumption.
        apply tail_app_entry. lia.
    + destruct Hs as (Hc2 & Ht2).
      assert (Hh2 : history st2 = history st)
        by (unfold history at 1; rewrite Hc2; reflexivity).
      destruct o as [[]|e|];
        try (eexists _, _; split; [reflexivity|];
             rewrite app_nil_r, Ht2, Ht1; auto; fail).
      destruct (limit_history_spec st2 _ Hc2) as (st3 & -> & Hh3 & Ht3).
      eexists _, _. split; [reflexivity|].
      rewrite Hh3, Ht3, Ht2, Ht1, Hsmall, app_nil_r. auto.
  - unfold ret. destruct (limit_history_spec st1 _ Hc1) as (st3 & -> & Hh3 & Ht3).
    eexists _, _. split; [reflexivity|].
    rewrite Hh3, Ht3, Ht1, Hsmall, app_nil_r. auto.
Qed.

Lemma appended_length conv e :
  (length conv <= MAX_HISTORY)%nat -> (length (appended conv e) <= MAX_HISTORY)%nat.
Proof.
  intros H. unfold appended. destruct (bool_decide_reflect (length conv < MAX_HISTORY)%nat).
  - rewrite length_app. cbn [length]. lia.
  - rewrite length_app. unfold MAX_HISTORY in *.
    destruct conv; cbn [tail length] in *; lia.
Qed.

(** The bound is an invariant of the session. *)
Lemma reachable_bounded st : reachable st -> (length (history st) <= MAX_HISTORY)%nat.
Proof.
  induction 1 as [|st create data w Hr IH].
  - unfold history, initial. cbn [session_state]. rewrite lookup_empty.
    cbn [default length]. unfold MAX_HISTORY. lia.
  - destruct (script_spec create data w st IH) as [-> _].
    destruct (answered create data w) as [[e r]|]; [apply appended_length|]; exact IH.
Qed.

End ScriptFacts.

Module AnsweredFacts.

Lemma answered_Some create data w e r :
  answered create data w = Some (e, r) ->
  button w = true /\ user_question w <> "" /\
  exists info prompt,
    lookup_selected (selected_product w) data = Return (Some info) /\
    info <> ∅ /\
    build_prompt info (user_question w) = Return prompt /\
    e = (user_question w, answer_of (create (chat_request prompt))) /\
    r = chat_request prompt.
Proof.
  unfold answered, submitted.
  destruct (product_names data) as [ns| |]; try discriminate.
  destruct (button w); try discriminate.
  destruct (bool_decide_reflect (user_question w = "")) as [|Hq]; try discriminate.
  destruct (lookup_selected (selected_product w) data) as [[info|]| |]; try discriminate.
  destruct (bool_decide_reflect (info = ∅)) as [|Hi]; try discriminate.
  destruct (build_prompt info (user_question w)) as [prompt| |] eqn:Ep; try discriminate.
  intros [= <- <-]. split; [reflexivity|]. split; [exact Hq|].
  exists info, prompt. repeat split; auto.
Qed.

Lemma answered_empty_question create data w :
  user_question w = "" -> answered create data w = None.
Proof.
  intros Hq. unfold answered, submitted. rewrite bool_decide_eq_true_2 by exact Hq.
  destruct (product_names data); auto. destruct (button w); auto.
Qed.

Lemma answered_not_found create data w :
  lookup_selected (selected_product w) data = Return None ->
  answered create data w = None.
Proof.
  intros Hl. unfold answered, submitted. rewrite Hl.
  destruct (product_names data); auto. destruct (button w); auto.
  destruct (bool_decide _); auto.
Qed.

Lemma reachable_ask q st : reachable st -> reachable (ask q st).
Proof. apply reachable_run. Qed.

End AnsweredFacts.

(** C3.  In every state of a session the history holds at most five
    entries.  A run that answers appends its entry at the end; when the
    history already holds five entries, the oldest one is dropped and the
    other four follow in their order, then the new entry. *)
Theorem history_is_bounded_fifo :
  (forall st, reachable st -> (length (history st) <= 5)%nat) /\
  (forall st create product_data w entry r,
     reachable st -> answered create product_data w = Some (entry, r) ->
     ((length (history st) < 5)%nat ->
      history (fst (script create product_data w st)) = history st ++ [entry]) /\
     (forall e1 e2 e3 e4 e5, history st = [e1; e2; e3; e4; e5] ->
      history (fst (script create product_data w st)) = [e2; e3; e4; e5; entry])).
Proof.
  split; [exact ScriptFacts.reachable_bounded|].
  intros st create product_data w entry r Hr Ha.
  destruct (ScriptFacts.script_spec create product_data w st
              (ScriptFacts.reachable_bounded st Hr)) as [-> _].
  rewrite Ha. unfold appended. split.
  - intros Hlt. rewrite bool_decide_eq_true_2 by exact Hlt. reflexivity.
  - intros e1 e2 e3 e4 e5 ->. reflexivity.
Qed.

Lemma history_is_bounded_fifo_witness :
  (length (history (ask "q6" five_questions)) <= 5)%nat /\
  history (ask "q6" five_questions)
    = [("q2", "ok"); ("q3", "ok"); ("q4", "ok"); ("q5", "ok"); ("q6", "ok")].
Proof.
  assert (Hr : reachable five_questions)
    by (repeat apply AnsweredFacts.reachable_ask; apply reachable_initial).
  split.
  - apply (proj1 history_is_bounded_fifo). apply AnsweredFacts.reachable_ask, Hr.
  - eapply (proj2 history_is_bounded_fifo five_questions (fun _ => Completion "ok")
              (sample_catalog ["Sealant X"]) (sealant_widgets "q6")).
    + exact Hr.
    + vm_compute. reflexivity.
    + vm_compute. reflexivity.
Defined.

(** C9.  In a session, a run whose question is empty, and a run whose
    lookup returns [None], leave the history as it was and send no request.
    A run that changes the history or sends a request is one in which the
    button was pressed, the question is not empty, the lookup returned a
    record and the prompt was built: it sends that one request and appends
    the question with the answer made of the service's outcome. *)
Theorem history_appended_only_when_answered
    (st : state) (create : request -> api_outcome) (product_data : DataFrame)
    (w : widgets) :
  reachable st ->
  (user_question w = "" ->
     history (fst (script create product_data w st)) = history st /\
     api_requests (trace (fst (script create product_data w st)))
       = api_requests (trace st)) /\
  (lookup_selected (selected_product w) product_data = Return None ->
     history (fst (script create product_data w st)) = history st /\
     api_requests (trace (fst (script create product_data w st)))
       = api_requests (trace st)) /\
  (history (fst (script create product_data w st)) <> history st \/
   api_requests (trace (fst (script create product_data w st)))
     <> api_requests (trace st) ->
   button w = true /\ user_question w <> "" /\
   exists info prompt,
     lookup_selected (selected_product w) product_data = Return (Some info) /\
     build_prompt info (user_question w) = Return prompt /\
     history (fst (script create product_data w st))
       = appended (history st)
           (user_question w, answer_of (create (chat_request prompt))) /\
     api_requests (trace (fst (script create product_data w st)))
       = api_requests (trace st) ++ [chat_request prompt]).
Proof.
  intros Hr.
  destruct (ScriptFacts.script_spec create product_data w st
              (ScriptFacts.reachable_bounded st Hr)) as [Hh Ht].
  rewrite Hh, Ht. split; [|split].
  - intros Hq. rewrite (AnsweredFacts.answered_empty_question _ _ _ Hq).
    rewrite app_nil_r. auto.
  - intros Hl. rewrite (AnsweredFacts.answered_not_found _ _ _ Hl).
    rewrite app_nil_r. auto.
  - destruct (answered create product_data w) as [[e r]|] eqn:Ea.
    + intros _.
      destruct (AnsweredFacts.answered_Some _ _ _ _ _ Ea)
        as (Hb & Hq & info & prompt & Hl & _ & Hp & -> & ->).
      split; [exact Hb|]. split; [exact Hq|]. exists info, prompt. auto.
    + rewrite app_nil_r. intros [H|H]; destruct H; reflexivity.
Qed.

Lemma history_appended_only_when_answered_witness :
  history (fst (script (fun _ => Completion "ok") (sample_catalog ["Sealant X"])
                  (sealant_widgets "") five_questions))
    = history five_questions /\
  api_requests (trace (fst (script (fun _ => Completion "ok")
                              (sample_catalog ["Sealant X"])
                              (sealant_widgets "") five_questions)))
    = api_requests (trace five_questions).
Proof.
  apply (proj1 (history_appended_only_when_answered five_questions
                  (fun _ => Completion "ok") (sample_catalog ["Sealant X"])
                  (sealant_widgets "")
                  (AnsweredFacts.reachable_ask _ _ (AnsweredFacts.reachable_ask _ _
                    (AnsweredFacts.reachable_ask _ _ (AnsweredFacts.reachable_ask _ _
                      (AnsweredFacts.reachable_ask _ _ reachable_initial))))))).
  reflexivity.
Defined.

(* ===================================================================== *)
(** * Further properties of the lookup *)
(* ===================================================================== *)

Module PatternFacts.
Import Re ReFacts PyStrFacts LiteralPatterns LookupFacts.

(** The lookup with a pattern of the fragment returns the first record
    whose name matches it. *)
Lemma get_product_info_pattern q data names r :
  compile q true = Pattern r -> name_column data = Return names ->
  get_product_info q data = Return (first_matching r data).
Proof.
  intros Hq Hn. destruct (name_column_inv _ _ Hn) as (j & Hj & Hg & Hs & Hv).
  unfold get_product_info, first_matching, name_cell.
  rewrite Hg. cbn [obind]. rewrite Hs. cbn [obind].
  unfold str_contains. cbn [negb]. rewrite Hq. cbn [obind].
  rewrite Hv, map_map, Hj.
  rewrite (boolean_index_rows (fun row => name_matches r (cell_at j (snd row)))).
  destruct (filter _ (rows data)) as [|[i row] l]; reflexivity.
Qed.

(** The lookup does not depend on the query when the name column cannot be
    searched. *)
Lemma get_product_info_no_names q data :
  (forall names, name_column data <> Return names) ->
  get_product_info q data = obind (name_column data) (fun _ => Return None).
Proof.
  intros Hn. unfold get_product_info, name_column in *.
  destruct (getitem "Producto" data) as [col| |]; cbn [obind] in *; try reflexivity.
  destruct (str_accessor col) as [names| |]; cbn [obind]; try reflexivity.
  destruct (Hn names). reflexivity.
Qed.

Lemma filter_none {A : Type} (P : A -> Prop) `{!forall x, Decision (P x)} (l : list A) :
  (forall x, x ∈ l -> ~ P x) -> filter P l = [].
Proof.
  induction l as [|x l IH]; intros Hall; [reflexivity|].
  rewrite filter_cons_False by (apply Hall; left).
  apply IH. intros y Hy. apply Hall. right. exact Hy.
Qed.

(** The first element that a filter keeps. *)
Lemma filter_first {A : Type} (P : A -> Prop) `{!forall x, Decision (P x)}
    (before : list A) (x : A) (after : list A) :
  (forall y, y ∈ before -> ~ P y) -> P x ->
  filter P (before ++ x :: after) = x :: filter P after.
Proof.
  intros Hb Hx. rewrite filter_app, (filter_none P before Hb).
  rewrite filter_cons_True by exact Hx. reflexivity.
Qed.

Lemma filter_head_inv {A : Type} (P : A -> Prop) `{!forall x, Decision (P x)}
    (l : list A) (x : A) (rest : list A) :
  filter P l = x :: rest ->
  P x /\ exists before after, l = before ++ x :: after /\ forall y, y ∈ before -> ~ P y.
Proof.
  intros E. split.
  - assert (Hin : x ∈ filter P l) by (rewrite E; left).
    apply list_elem_of_filter in Hin as [Hx _]. exact Hx.
  - destruct (head_filter_Some P l x) as (l1 & l2 & -> & Hall); [rewrite E; reflexivity|].
    exists l1, l2. split; [reflexivity|]. intros y Hy. rewrite Forall_forall in Hall. auto.
Qed.

Lemma prefix_ic_refl l k : PyStr.prefix_ic l (l ++ k) = true.
Proof.
  induction l as [|c l IH]; [destruct k; reflexivity|].
  cbn [PyStr.prefix_ic app]. rewrite bool_decide_eq_true_2 by reflexivity. exact IH.
Qed.

Lemma contains_ignoring_case_refl t : PyStr.contains_ignoring_case t t.
Proof.
  apply contains_icb_spec. unfold PyStr.contains_icb.
  destruct (PyStr.chars t) as [|c l] eqn:E; [reflexivity|].
  cbn [PyStr.occurs_ic]. rewrite <- (app_nil_r (c :: l)) at 2.
  rewrite prefix_ic_refl. reflexivity.
Qed.

Lemma prefix_ic_lower t1 t2 l :
  map PyStr.lower_char t1 = map PyStr.lower_char t2 ->
  PyStr.prefix_ic t1 l = PyStr.prefix_ic t2 l.
Proof.
  revert t2 l. induction t1 as [|c t1 IH]; intros [|d t2] l H; try discriminate.
  - reflexivity.
  - injection H as Hc Ht. destruct l as [|x l]; [reflexivity|].
    cbn [PyStr.prefix_ic]. rewrite Hc, (IH t2 l Ht). reflexivity.
Qed.

Lemma occurs_ic_lower t1 t2 l :
  map PyStr.lower_char t1 = map PyStr.lower_char t2 ->
  PyStr.occurs_ic t1 l = PyStr.occurs_ic t2 l.
Proof.
  intros H. induction l as [|x l IH]; cbn [PyStr.occurs_ic].
  - rewrite (prefix_ic_lower t1 t2 [] H). reflexivity.
  - rewrite (prefix_ic_lower t1 t2 (x :: l) H), IH. reflexivity.
Qed.

Lemma name_contains_lower q1 q2 name :
  PyStr.lower q1 = PyStr.lower q2 -> name_contains q1 name = name_contains q2 name.
Proof.
  intros H. destruct name as [t| |z]; [|reflexivity|reflexivity].
  cbn [name_contains]. unfold PyStr.contains_icb. apply occurs_ic_lower.
  rewrite <- !chars_lower, H. reflexivity.
Qed.

Lemma lower_char_idem c : PyStr.lower_char (PyStr.lower_char c) = PyStr.lower_char c.
Proof. destruct c as [[] [] [] [] [] [] [] []]; reflexivity. Qed.

Lemma lower_char_special c : special (PyStr.lower_char c) = special c.
Proof. destruct c as [[] [] [] [] [] [] [] []]; vm_compute; reflexivity. Qed.

Lemma lower_idem q : PyStr.lower (PyStr.lower q) = PyStr.lower q.
Proof.
  apply chars_inj. rewrite !chars_lower, map_map.
  apply map_ext. intros c. apply lower_char_idem.
Qed.

Lemma plain_lower q : plain (PyStr.lower q) = plain q.
Proof.
  unfold plain. rewrite chars_lower.
  induction (PyStr.chars q) as [|c l IH]; [reflexivity|].
  cbn [map forallb]. rewrite lower_char_special, IH. reflexivity.
Qed.

End PatternFacts.

Module ParseFacts.
Import Re LiteralPatterns.

Lemma parse_plain_app ic pat rest cur stack :
  forallb (fun c => negb (special c)) pat = true ->
  parse ic (pat ++ rest) cur stack =
  parse ic rest (Frame (branches cur) (rev (literal_items ic pat) ++ items cur)) stack.
Proof.
  revert cur. induction pat as [|c pat IH]; intros cur H.
  - destruct cur; reflexivity.
  - cbn [forallb] in H. apply andb_true_iff in H as [Hc H].
    apply negb_true_iff, bool_decide_eq_false in Hc.
    cbv [PyStr.chars list_ascii_of_string] in Hc.
    rewrite !not_elem_of_cons in Hc.
    destruct Hc as (? & ? & ? & ? & ? & ? & ? & ? & ? & ? & ? & ? & _).
    cbn [parse app]. unfold is_quantifier.
    rewrite !bool_decide_eq_false_2 by assumption. cbn [orb].
    rewrite IH by assumption. cbn [push branches items literal_items map rev].
    rewrite <- app_assoc. reflexivity.
Qed.

Lemma compile_closing_parenthesis a rest ic :
  plain a = true -> compile (a +:+ ")" +:+ rest) ic = PatternError.
Proof.
  intros Ha. unfold compile. rewrite !PyStrFacts.chars_app.
  rewrite parse_plain_app by exact Ha. reflexivity.
Qed.

Lemma compile_unclosed_parenthesis a b ic :
  plain a = true -> plain b = true -> compile (a +:+ "(" +:+ b) ic = PatternError.
Proof.
  intros Ha Hb. unfold compile. rewrite !PyStrFacts.chars_app.
  rewrite parse_plain_app by exact Ha.
  change (PyStr.chars "(") with ["("%char]. cbn [app parse].
  rewrite bool_decide_eq_true_2 by reflexivity.
  unfold plain in Hb. destruct (PyStr.chars b) as [|c l] eqn:E; [reflexivity|].
  assert (Hc : c <> "?"%char).
  { cbn [forallb] in Hb. apply andb_true_iff in Hb as [Hc _].
    intros ->. discriminate Hc. }
  assert (Hp : parse ic (c :: l) empty_frame
                 [Frame [] (rev (literal_items ic (PyStr.chars a)) ++ [])] = PatternError).
  { rewrite <- (app_nil_r (c :: l)), parse_plain_app by exact Hb. reflexivity. }
  destruct c as [[] [] [] [] [] [] [] []]; try exact Hp. destruct Hc. reflexivity.
Qed.

Lemma compile_trailing_backslash a ic :
  plain a = true -> compile (a +:+ "\") ic = PatternError.
Proof.
  intros Ha. unfold compile. rewrite !PyStrFacts.chars_app.
  rewrite parse_plain_app by exact Ha. reflexivity.
Qed.

Lemma get_product_info_bad_pattern q data names :
  compile q true = PatternError -> name_column data = Return names ->
  get_product_info q data = Raise ReError.
Proof.
  intros Hq Hn. destruct (LookupFacts.name_column_inv _ _ Hn) as (j & Hj & Hg & Hs & Hv).
  unfold get_product_info. rewrite Hg. cbn [obind]. rewrite Hs. cbn [obind].
  unfold str_contains. cbn [negb]. rewrite Hq. reflexivity.
Qed.

End ParseFacts.

(** X1.  For a query without special characters, on a catalogue whose name
    column can be searched, the lookup returns the record of a row exactly
    when that row is the first one, in catalogue order, whose name is a
    text containing the query ignoring case. *)
Theorem get_product_info_first_containing (q : string) (c : DataFrame) (names : Series) :
  Re.plain q = true -> name_column c = Return names ->
  (forall before row after t,
     rows c = before ++ row :: after ->
     name_cell c row = Text t -> PyStr.contains_ignoring_case t q ->
     (forall r t', r ∈ before -> name_cell c r = Text t' ->
                   ~ PyStr.contains_ignoring_case t' q) ->
     get_product_info q c = Return (Some (to_dict (columns c) (snd row)))) /\
  (forall info, get_product_info q c = Return (Some info) ->
     exists before row after t,
       rows c = before ++ row :: after /\
       info = to_dict (columns c) (snd row) /\
       name_cell c row = Text t /\ PyStr.contains_ignoring_case t q /\
       forall r t', r ∈ before -> name_cell c r = Text t' ->
                    ~ PyStr.contains_ignoring_case t' q).
Proof.
  intros Hq Hn. rewrite (LookupFacts.get_product_info_plain q c names Hq Hn).
  unfold first_containing. split.
  - intros before row after t Hrows Ht Hc Hb. rewrite Hrows.
    rewrite PatternFacts.filter_first; [reflexivity| |].
    + intros r Hr Hm. destruct (name_cell c r) as [t'| |z] eqn:E; cbn [name_contains] in Hm;
        try contradiction.
      apply (Hb r t' Hr E). apply PyStrFacts.contains_icb_spec, Is_true_true, Hm.
    + rewrite Ht. cbn [name_contains]. apply Is_true_true, PyStrFacts.contains_icb_spec, Hc.
  - intros info.
    destruct (filter _ (rows c)) as [|row rest] eqn:E; [discriminate|].
    intros [= <-].
    apply PatternFacts.filter_head_inv in E as (Hm & before & after & Hrows & Hb).
    destruct (name_cell c row) as [t| |z] eqn:Et; cbn [name_contains] in Hm;
      try contradiction.
    exists before, row, after, t. split; [exact Hrows|]. split; [reflexivity|].
    split; [exact Et|].
    split; [apply PyStrFacts.contains_icb_spec, Is_true_true, Hm|].
    intros r t' Hr Et' Hc. apply (Hb r Hr). rewrite Et'. cbn [name_contains].
    apply Is_true_true, PyStrFacts.contains_icb_spec, Hc.
Qed.

Lemma get_product_info_first_containing_witness :
  (forall before row after t,
     rows (sample_catalog ["Blue Paint"; "Blue Paint Extra"]) = before ++ row :: after ->
     name_cell (sample_catalog ["Blue Paint"; "Blue Paint Extra"]) row = Text t ->
     PyStr.contains_ignoring_case t "extra" ->
     (forall r t', r ∈ before ->
        name_cell (sample_catalog ["Blue Paint"; "Blue Paint Extra"]) r = Text t' ->
        ~ PyStr.contains_ignoring_case t' "extra") ->
     get_product_info "extra" (sample_catalog ["Blue Paint"; "Blue Paint Extra"])
       = Return (Some (to_dict (columns (sample_catalog ["Blue Paint"; "Blue Paint Extra"]))
                               (snd row)))) /\
  (forall info,
     get_product_info "extra" (sample_catalog ["Blue Paint"; "Blue Paint Extra"])
       = Return (Some info) ->
     exists before row after t,
       rows (sample_catalog ["Blue Paint"; "Blue Paint Extra"]) = before ++ row :: after /\
       info = to_dict (columns (sample_catalog ["Blue Paint"; "Blue Paint Extra"])) (snd row) /\
       name_cell (sample_catalog ["Blue Paint"; "Blue Paint Extra"]) row = Text t /\
       PyStr.contains_ignoring_case t "extra" /\
       forall r t', r ∈ before ->
         name_cell (sample_catalog ["Blue Paint"; "Blue Paint Extra"]) r = Text t' ->
         ~ PyStr.contains_ignoring_case t' "extra").
Proof.
  apply (get_product_info_first_containing "extra"
           (sample_catalog ["Blue Paint"; "Blue Paint Extra"])
           {| s_dtype := ObjectDtype;
              values := [Text "Blue Paint"; Text "Blue Paint Extra"] |}).
  - reflexivity.
  - vm_compute. reflexivity.
Defined.

(** X2.  A product name taken from the catalogue itself, when it has no
    special character, is always found: the lookup returns the record of a
    row whose name contains the chosen name ignoring case (the first such
    row, which need not be the chosen one). *)
Theorem catalogue_name_is_found (c : DataFrame) (names : Series)
    (row : Z * list cell) (t : string) :
  name_column c = Return names ->
  row ∈ rows c -> name_cell c row = Text t -> Re.plain t = true ->
  exists found t',
    found ∈ rows c /\
    get_product_info t c = Return (Some (to_dict (columns c) (snd found))) /\
    name_cell c found = Text t' /\ PyStr.contains_ignoring_case t' t.
Proof.
  intros Hn Hrow Ht Hp. rewrite (LookupFacts.get_product_info_plain t c names Hp Hn).
  unfold first_containing.
  destruct (filter _ (rows c)) as [|found rest] eqn:E.
  - exfalso. apply (filter_nil_not_elem_of _ _ row E); [|exact Hrow].
    rewrite Ht. cbn [name_contains].
    apply Is_true_true, PyStrFacts.contains_icb_spec, PatternFacts.contains_ignoring_case_refl.
  - assert (Hin : found ∈ filter (fun r => Is_true (name_contains t (name_cell c r)))
                             (rows c)) by (rewrite E; left).
    apply list_elem_of_filter in Hin as [Hm Hin].
    destruct (name_cell c found) as [t'| |z] eqn:Et; cbn [name_contains] in Hm;
      try contradiction.
    exists found, t'. split; [exact Hin|]. split; [reflexivity|]. split; [exact Et|].
    apply PyStrFacts.contains_icb_spec, Is_true_true, Hm.
Qed.

Lemma catalogue_name_is_found_witness :
  exists found t',
    found ∈ rows (sample_catalog ["Blue Paint Extra"; "Blue Paint"]) /\
    get_product_info "Blue Paint" (sample_catalog ["Blue Paint Extra"; "Blue Paint"])
      = Return (Some (to_dict (columns (sample_catalog ["Blue Paint Extra"; "Blue Paint"]))
                              (snd found))) /\
    name_cell (sample_catalog ["Blue Paint Extra"; "Blue Paint"]) found = Text t' /\
    PyStr.contains_ignoring_case t' "Blue Paint".
Proof.
  apply (catalogue_name_is_found (sample_catalog ["Blue Paint Extra"; "Blue Paint"])
           {| s_dtype := ObjectDtype;
              values := [Text "Blue Paint Extra"; Text "Blue Paint"] |}
           (1, sample_row 2 "Blue Paint") "Blue Paint").
  - vm_compute. reflexivity.
  - right. left.
  - reflexivity.
  - reflexivity.
Defined.

(** X3.  For queries without special characters the lookup ignores the
    case of the query: the lower-cased query, and any other query that
    differs from it only in case, give the same result on every frame. *)
Theorem get_product_info_ignores_query_case (q : string) (c : DataFrame) :
  Re.plain q = true ->
  get_product_info (PyStr.lower q) c = get_product_info q c /\
  forall q', Re.plain q' = true -> PyStr.lower q' = PyStr.lower q ->
             get_product_info q' c = get_product_info q c.
Proof.
  intros Hq.
  assert (H : forall q', Re.plain q' = true -> PyStr.lower q' = PyStr.lower q ->
                         get_product_info q' c = get_product_info q c).
  { intros q' Hq' Hl. destruct (name_column c) as [names|e|] eqn:Hn.
    - rewrite (LookupFacts.get_product_info_plain q' c names Hq' Hn).
      rewrite (LookupFacts.get_product_info_plain q c names Hq Hn).
      unfold first_containing. f_equal.
      assert (Hf : forall row, name_contains q' (name_cell c row)
                               = name_contains q (name_cell c row))
        by (intros row; apply PatternFacts.name_contains_lower, Hl).
      induction (rows c) as [|row l IH]; [reflexivity|].
      rewrite !filter_cons, Hf.
      destruct (decide (Is_true (name_contains q (name_cell c row)))); [reflexivity|].
      exact IH.
    - rewrite !PatternFacts.get_product_info_no_names by (rewrite Hn; discriminate).
      reflexivity.
    - rewrite !PatternFacts.get_product_info_no_names by (rewrite Hn; discriminate).
      reflexivity. }
  split; [|exact H].
  apply H; [rewrite PatternFacts.plain_lower; exact Hq | apply PatternFacts.lower_idem].
Qed.

Lemma get_product_info_ignores_query_case_witness :
  get_product_info (PyStr.lower "BLUE paint")
    (sample_catalog ["Blue Paint"; "Blue Paint Extra"])
  = get_product_info "BLUE paint" (sample_catalog ["Blue Paint"; "Blue Paint Extra"]) /\
  forall q', Re.plain q' = true -> PyStr.lower q' = PyStr.lower "BLUE paint" ->
             get_product_info q' (sample_catalog ["Blue Paint"; "Blue Paint Extra"])
             = get_product_info "BLUE paint"
                 (sample_catalog ["Blue Paint"; "Blue Paint Extra"]).
Proof.
  apply (get_product_info_ignores_query_case "BLUE paint"
           (sample_catalog ["Blue Paint"; "Blue Paint Extra"])).
  reflexivity.
Defined.

(** X4.  A query with a closing parenthesis that nothing opened, with an
    opening parenthesis that nothing closes, or with a backslash at its end
    makes the lookup raise [re.error] on every catalogue whose name column
    can be searched: no record is returned and no [None]. *)
Theorem get_product_info_unbalanced_query_raises (c : DataFrame) (names : Series) :
  name_column c = Return names ->
  (forall a rest, Re.plain a = true ->
     get_product_info (a +:+ ")" +:+ rest) c = Raise ReError) /\
  (forall a b, Re.plain a = true -> Re.plain b = true ->
     get_product_info (a +:+ "(" +:+ b) c = Raise ReError) /\
  (forall a, Re.plain a = true ->
     get_product_info (a +:+ "\") c = Raise ReError).
Proof.
  intros Hn. split; [|split].
  - intros a rest Ha. apply (ParseFacts.get_product_info_bad_pattern _ _ names); [|exact Hn].
    apply ParseFacts.compile_closing_parenthesis, Ha.
  - intros a b Ha Hb. apply (ParseFacts.get_product_info_bad_pattern _ _ names); [|exact Hn].
    apply ParseFacts.compile_unclosed_parenthesis; assumption.
  - intros a Ha. apply (ParseFacts.get_product_info_bad_pattern _ _ names); [|exact Hn].
    apply ParseFacts.compile_trailing_backslash, Ha.
Qed.

Lemma get_product_info_unbalanced_query_raises_witness :
  get_product_info ("Sika 1" +:+ ")" +:+ " (gris)") (sample_catalog ["Sika 1) (gris)"])
  = Raise ReError.
Proof.
  apply (proj1 (get_product_info_unbalanced_query_raises
                  (sample_catalog ["Sika 1) (gris)"])
                  {| s_dtype := ObjectDtype; values := [Text "Sika 1) (gris)"] |}
                  ltac:(vm_compute; reflexivity))).
  reflexivity.
Defined.

Module AlternationFacts.
Import Re ReFacts LiteralPatterns PyStrFacts.

Lemma compile_alternation a b ic :
  plain a = true -> plain b = true ->
  compile (a +:+ "|" +:+ b) ic =
  Pattern (Branch (literal_seq ic (PyStr.chars a))
                  (Branch (literal_seq ic (PyStr.chars b)) Never)).
Proof.
  intros Ha Hb. unfold compile. rewrite !chars_app.
  rewrite ParseFacts.parse_plain_app by exact Ha.
  change (PyStr.chars "|") with ["|"%char]. cbn [app parse].
  rewrite bool_decide_eq_false_2 by discriminate.
  rewrite bool_decide_eq_false_2 by discriminate.
  rewrite bool_decide_eq_true_2 by reflexivity.
  rewrite parse_plain by exact Hb.
  cbn [parse empty_frame branches items close branch_regex fold_left].
  rewrite !app_nil_r, !seq_regex_rev. reflexivity.
Qed.

Lemma search_alternation a b r s :
  plain a = true -> plain b = true -> compile (a +:+ "|" +:+ b) true = Pattern r ->
  search r s = PyStr.contains_icb s a || PyStr.contains_icb s b.
Proof.
  intros Ha Hb Hc. rewrite compile_alternation in Hc by assumption. injection Hc as <-.
  unfold search, PyStr.contains_icb. apply eq_true_iff_eq.
  rewrite orb_true_iff, search_chars_spec, !occurs_ic_spec. split.
  - intros (x & p & y & -> & H).
    inversion H as [| | |? ? ? H1|? ? ? H1| |]; subst.
    + left. exists x, p, y. split; [reflexivity | apply literal_seq_Matches, H1].
    + inversion H1 as [| | |? ? ? H2|? ? ? H2| |]; subst; [|inversion H2].
      right. exists x, p, y. split; [reflexivity | apply literal_seq_Matches, H2].
  - intros [(x & p & y & -> & H)|(x & p & y & -> & H)]; exists x, p, y;
      (split; [reflexivity|]).
    + apply MBranchL, literal_seq_Matches, H.
    + apply MBranchR, MBranchL, literal_seq_Matches, H.
Qed.

Lemma get_product_info_Some_inv q data info :
  get_product_info q data = Return (Some info) ->
  exists names r, name_column data = Return names /\ compile q true = Pattern r.
Proof.
  unfold get_product_info, name_column.
  destruct (getitem "Producto" data) as [col| |]; cbn [obind]; try discriminate.
  destruct (str_accessor col) as [names| |]; cbn [obind]; try discriminate.
  unfold str_contains. cbn [negb].
  destruct (compile q true) as [r| |]; cbn [obind]; try discriminate.
  intros _. eauto.
Qed.

Lemma first_matching_inv r data info :
  first_matching r data = Some info ->
  exists row t, row ∈ rows data /\ info = to_dict (columns data) (snd row) /\
                name_cell data row = Text t /\ search r t = true.
Proof.
  unfold first_matching.
  destruct (filter _ (rows data)) as [|row rest] eqn:E; [discriminate|].
  intros [= <-].
  assert (Hin : row ∈ filter (fun row => Is_true (name_matches r (name_cell data row)))
                          (rows data)) by (rewrite E; left).
  apply list_elem_of_filter in Hin as [Hm Hin].
  destruct (name_cell data row) as [t| |z] eqn:Et; cbn [name_matches] in Hm;
    try contradiction.
  exists row, t. split; [exact Hin|]. split; [reflexivity|]. split; [exact Et|].
  apply Is_true_true, Hm.
Qed.

Lemma first_matching_None r data :
  first_matching r data = None <->
  forall row t, row ∈ rows data -> name_cell data row = Text t -> search r t = false.
Proof.
  unfold first_matching. split.
  - destruct (filter _ (rows data)) as [|row0 l] eqn:E; [|discriminate].
    intros _ row t Hr Ht. destruct (search r t) eqn:Es; [|reflexivity].
    exfalso. apply (filter_nil_not_elem_of _ _ row E); [|exact Hr].
    rewrite Ht. cbn [name_matches]. rewrite Es. exact I.
  - intros H. destruct (filter _ (rows data)) as [|row0 l] eqn:E; [reflexivity|].
    assert (Hin : row0 ∈ filter (fun row => Is_true (name_matches r (name_cell data row)))
                             (rows data)) by (rewrite E; left).
    apply list_elem_of_filter in Hin as [Hm Hin].
    destruct (name_cell data row0) as [t| |z] eqn:Et; cbn [name_matches] in Hm;
      try contradiction.
    rewrite (H row0 t Hin Et) in Hm. contradiction.
Qed.

End AlternationFacts.

(** X5.  A vertical bar in the query separates alternatives: for texts [a]
    and [b] without special characters, the lookup of [a|b] returns, without
    raising, the record of a row whose name contains [a] or contains [b]
    ignoring case, and [None] exactly when no name contains either. *)
Theorem get_product_info_bar_is_alternation (a b : string) (c : DataFrame)
    (names : Series) :
  Re.plain a = true -> Re.plain b = true -> name_column c = Return names ->
  exists found,
    get_product_info (a +:+ "|" +:+ b) c = Return found /\
    (found = None <->
     forall row t, row ∈ rows c -> name_cell c row = Text t ->
       ~ PyStr.contains_ignoring_case t a /\ ~ PyStr.contains_ignoring_case t b) /\
    (forall info, found = Some info ->
       exists row t, row ∈ rows c /\ info = to_dict (columns c) (snd row) /\
         name_cell c row = Text t /\
         (PyStr.contains_ignoring_case t a \/ PyStr.contains_ignoring_case t b)).
Proof.
  intros Ha Hb Hn.
  pose proof (AlternationFacts.compile_alternation a b true Ha Hb) as Hc.
  eexists. split; [apply (PatternFacts.get_product_info_pattern _ _ names _ Hc Hn)|].
  split.
  - rewrite AlternationFacts.first_matching_None. split.
    + intros H row t Hr Ht. specialize (H row t Hr Ht).
      rewrite (AlternationFacts.search_alternation a b _ t Ha Hb Hc) in H.
      apply orb_false_iff in H as [H1 H2].
      split; intros Hx; apply PyStrFacts.contains_icb_spec in Hx; congruence.
    + intros H row t Hr Ht. destruct (H row t Hr Ht) as [H1 H2].
      rewrite (AlternationFacts.search_alternation a b _ t Ha Hb Hc).
      apply orb_false_iff. split.
      * destruct (PyStr.contains_icb t a) eqn:E; [|reflexivity].
        destruct H1. apply PyStrFacts.contains_icb_spec, E.
      * destruct (PyStr.contains_icb t b) eqn:E; [|reflexivity].
        destruct H2. apply PyStrFacts.contains_icb_spec, E.
  - intros info Hi.
    apply AlternationFacts.first_matching_inv in Hi as (row & t & Hr & -> & Ht & Hs).
    exists row, t. split; [exact Hr|]. split; [reflexivity|]. split; [exact Ht|].
    rewrite (AlternationFacts.search_alternation a b _ t Ha Hb Hc) in Hs.
    apply orb_true_iff in Hs as [Hs|Hs]; [left|right];
      apply PyStrFacts.contains_icb_spec, Hs.
Qed.

Lemma get_product_info_bar_is_alternation_witness :
  exists found,
    get_product_info ("extra" +:+ "|" +:+ "blue")
      (sample_catalog ["Blue Paint"; "Blue Paint Extra"]) = Return found /\
    (found = None <->
     forall row t, row ∈ rows (sample_catalog ["Blue Paint"; "Blue Paint Extra"]) ->
       name_cell (sample_catalog ["Blue Paint"; "Blue Paint Extra"]) row = Text t ->
       ~ PyStr.contains_ignoring_case t "extra" /\ ~ PyStr.contains_ignoring_case t "blue") /\
    (forall info, found = Some info ->
       exists row t, row ∈ rows (sample_catalog ["Blue Paint"; "Blue Paint Extra"]) /\
         info = to_dict (columns (sample_catalog ["Blue Paint"; "Blue Paint Extra"])) (snd row) /\
         name_cell (sample_catalog ["Blue Paint"; "Blue Paint Extra"]) row = Text t /\
         (PyStr.contains_ignoring_case t "extra" \/ PyStr.contains_ignoring_case t "blue")).
Proof.
  apply (get_product_info_bar_is_alternation "extra" "blue"
           (sample_catalog ["Blue Paint"; "Blue Paint Extra"])
           {| s_dtype := ObjectDtype;
              values := [Text "Blue Paint"; Text "Blue Paint Extra"] |}).
  - reflexivity.
  - reflexivity.
  - vm_compute. reflexivity.
Defined.

(** X6.  Whatever the query, a record that the lookup returns on a
    catalogue with the six product labels is the dictionary of one of the
    catalogue's rows, its name is a text, and the query, compiled as a
    pattern, is found in that name: a row whose name is missing or a number
    is never returned. *)
Theorem get_product_info_returns_a_text_named_row (q : string) (c : DataFrame)
    (info : gmap string cell) :
  columns c = product_columns ->
  get_product_info q c = Return (Some info) ->
  exists row t r,
    row ∈ rows c /\ info = to_dict product_columns (snd row) /\
    info !! "Producto" = Some (Text t) /\ cell_at 1 (snd row) = Text t /\
    Re.compile q true = Re.Pattern r /\ Re.search r t = true.
Proof.
  intros Hcols Hg.
  destruct (AlternationFacts.get_product_info_Some_inv _ _ _ Hg) as (names & r & Hn & Hc).
  rewrite (PatternFacts.get_product_info_pattern _ _ names _ Hc Hn) in Hg.
  injection Hg as Hg.
  apply AlternationFacts.first_matching_inv in Hg as (row & t & Hr & -> & Ht & Hs).
  unfold name_cell in Ht. rewrite Hcols in Ht |- *.
  change (positions "Producto" product_columns 0) with [1%nat] in Ht.
  exists row, t, r. split; [exact Hr|]. split; [reflexivity|].
  split; [rewrite <- Ht; reflexivity|]. auto.
Qed.

Lemma get_product_info_returns_a_text_named_row_witness :
  exists row t r,
    row ∈ rows (sample_catalog ["Blue Paint"; "Blue Paint Extra"]) /\
    sample_record 2 "Blue Paint Extra" = to_dict product_columns (snd row) /\
    sample_record 2 "Blue Paint Extra" !! "Producto" = Some (Text t) /\
    cell_at 1 (snd row) = Text t /\
    Re.compile "paint.ex" true = Re.Pattern r /\ Re.search r t = true.
Proof.
  apply (get_product_info_returns_a_text_named_row "paint.ex"
           (sample_catalog ["Blue Paint"; "Blue Paint Extra"])).
  - reflexivity.
  - vm_compute. reflexivity.
Defined.

(* ===================================================================== *)
(** * Further properties of the loading *)
(* ===================================================================== *)

Module LoadedFacts.

Lemma existsb_map_elem {A B : Type} (f : A -> B) (p : B -> bool) (l : list A) (x : A) :
  x ∈ l -> p (f x) = true -> existsb p (map f l) = true.
Proof.
  intros Hx Hp. induction l as [|y l IH]; [inversion Hx|].
  apply elem_of_cons in Hx as [->|Hx]; cbn [map existsb].
  - rewrite Hp. reflexivity.
  - rewrite IH by exact Hx. apply orb_true_r.
Qed.

Lemma range_index_values {A B : Type} (f : A -> B) (l : list A) :
  map (fun r => f (snd r)) (range_index l) = map f l.
Proof. rewrite <- (map_map snd f), LoadFacts.range_index_snd. reflexivity. Qed.

(** The name column of what [load_product_data] returns on a sheet. *)
Lemma loaded_getitem header first rest :
  length header = 6%nat ->
  exists catalog,
    load_product_data (Sheet header (first :: rest)) = Return catalog /\
    columns catalog = product_columns /\
    rows catalog = range_index rest /\
    getitem "Producto" catalog =
    Return (OneColumn {| s_dtype := column_dtype (map (cell_at 1) (first :: rest));
                         values := map (cell_at 1) rest |}).
Proof.
  intros Hh. eexists. split; [apply LoadFacts.load_product_data_sheet, Hh|].
  split; [reflexivity|]. split; [reflexivity|].
  unfold getitem. cbn [columns dtypes rows].
  change (positions "Producto" product_columns 0) with [1%nat].
  rewrite Hh. cbn [seq map nth]. rewrite range_index_values. reflexivity.
Qed.

Lemma load_product_data_getitem file_path catalog :
  load_product_data file_path = Return catalog ->
  exists s, getitem "Producto" catalog = Return (OneColumn s).
Proof.
  intros Hl. apply LoadFacts.load_product_data_columns in Hl.
  unfold getitem. rewrite Hl.
  change (positions "Producto" product_columns 0) with [1%nat]. eauto.
Qed.

End LoadedFacts.

(** X7.  [load_product_data] returns exactly when the file is a sheet with
    six columns and at least one row after the header.  A six-column sheet
    with no row after the header raises [KeyError] ([drop(0)] finds no row
    labelled 0), and the column count is checked first: with another count
    the call raises [ValueError] whether there are rows or not. *)
Theorem load_product_data_returns_iff :
  (forall file_path,
     (exists catalog, load_product_data file_path = Return catalog) <->
     (exists header first rest,
        file_path = Sheet header (first :: rest) /\ length header = 6%nat)) /\
  (forall header, length header = 6%nat ->
     load_product_data (Sheet header []) = Raise KeyError) /\
  (forall header, length header <> 6%nat ->
     load_product_data (Sheet header []) = Raise ValueError) /\
  (forall file_path, load_product_data file_path <> Unmodelled).
Proof.
  assert (Hbad : forall header body, length header <> 6%nat ->
                   load_product_data (Sheet header body) = Raise ValueError).
  { intros header body Hh. unfold load_product_data, read_excel, set_columns.
    cbn [obind columns]. rewrite bool_decide_eq_false_2; [reflexivity|].
    cbn [product_columns length]. congruence. }
  assert (Hempty : forall header, length header = 6%nat ->
                     load_product_data (Sheet header []) = Raise KeyError).
  { intros header Hh. unfold load_product_data, read_excel, set_columns.
    cbn [obind columns dtypes rows]. rewrite Hh.
    rewrite bool_decide_eq_true_2 by reflexivity. reflexivity. }
  split; [|split; [exact Hempty|split; [intros header; apply Hbad|]]].
  - intros file_path. split.
    + intros [catalog Hl]. destruct file_path as [| |header body]; try discriminate.
      destruct (decide (length header = 6%nat)) as [Hh|Hh].
      * destruct body as [|first rest]; [rewrite Hempty in Hl by exact Hh; discriminate|].
        eauto.
      * rewrite Hbad in Hl by exact Hh. discriminate.
    + intros (header & first & rest & -> & Hh). eexists.
      apply LoadFacts.load_product_data_sheet, Hh.
  - intros [| |header body]; try discriminate.
    destruct (decide (length header = 6%nat)) as [Hh|Hh].
    + destruct body as [|first rest]; [rewrite Hempty by exact Hh; discriminate|].
      rewrite LoadFacts.load_product_data_sheet by exact Hh. discriminate.
    + rewrite Hbad by exact Hh. discriminate.
Qed.

Lemma load_product_data_returns_iff_witness :
  load_product_data (Sheet sample_header []) = Raise KeyError /\
  exists catalog, load_product_data (sample_sheet ["Blue Paint"]) = Return catalog.
Proof.
  split.
  - apply (proj1 (proj2 load_product_data_returns_iff)). reflexivity.
  - apply (proj1 load_product_data_returns_iff). eexists _, _, _. split; reflexivity.
Defined.

(** X8.  The labels of the sheet's header are not used, only their number:
    two sheets with the same body and headers of the same length load to
    the same result.  And the first row after the header is dropped
    whatever it holds: two six-column sheets that differ only in that row
    load to catalogues with the same labels and the same rows. *)
Theorem load_product_data_ignores_header_and_first_row :
  (forall header1 header2 body, length header1 = length header2 ->
     load_product_data (Sheet header1 body) = load_product_data (Sheet header2 body)) /\
  (forall header first1 first2 rest, length header = 6%nat ->
     exists catalog1 catalog2,
       load_product_data (Sheet header (first1 :: rest)) = Return catalog1 /\
       load_product_data (Sheet header (first2 :: rest)) = Return catalog2 /\
       columns catalog1 = columns catalog2 /\ rows catalog1 = rows catalog2 /\
       map snd (rows catalog1) = rest).
Proof.
  split.
  - intros header1 header2 body Hlen.
    unfold load_product_data, read_excel, set_columns.
    cbn [obind columns dtypes rows]. rewrite Hlen. reflexivity.
  - intros header first1 first2 rest Hh. eexists _, _.
    split; [apply LoadFacts.load_product_data_sheet, Hh|].
    split; [apply LoadFacts.load_product_data_sheet, Hh|].
    cbn [columns rows]. split; [reflexivity|]. split; [reflexivity|].
    apply LoadFacts.range_index_snd.
Qed.

Lemma load_product_data_ignores_header_and_first_row_witness :
  load_product_data (Sheet sample_header [reserved_row; sample_row 1 "Blue Paint"])
  = load_product_data (Sheet product_columns [reserved_row; sample_row 1 "Blue Paint"]).
Proof.
  apply (proj1 load_product_data_ignores_header_and_first_row). reflexivity.
Defined.

(** X9.  The options of the select box, [product_names], are the second
    cells of the sheet's rows after the first one, in the order of the
    sheet, missing values and numbers included. *)
Theorem product_names_of_loaded_sheet (header : list string) (first : list cell)
    (rest : list (list cell)) :
  length header = 6%nat ->
  exists catalog,
    load_product_data (Sheet header (first :: rest)) = Return catalog /\
    product_names catalog = Return (map (cell_at 1) rest).
Proof.
  intros Hh.
  destruct (LoadedFacts.loaded_getitem header first rest Hh) as (catalog & Hl & _ & _ & Hg).
  exists catalog. split; [exact Hl|]. unfold product_names. rewrite Hg. reflexivity.
Qed.

Lemma product_names_of_loaded_sheet_witness :
  exists catalog,
    load_product_data
      (Sheet sample_header [reserved_row; sample_row 1 "Blue Paint";
                            [Int 2; NaN; NaN; NaN; NaN; NaN]]) = Return catalog /\
    product_names catalog
      = Return (map (cell_at 1) [sample_row 1 "Blue Paint"; [Int 2; NaN; NaN; NaN; NaN; NaN]]).
Proof.
  apply (product_names_of_loaded_sheet sample_header reserved_row
           [sample_row 1 "Blue Paint"; [Int 2; NaN; NaN; NaN; NaN; NaN]]).
  reflexivity.
Defined.

(** X10.  Loading composes with the lookup.  On a catalogue that
    [load_product_data] returned the column "Producto" is always there, so
    no lookup raises [KeyError]; and when the sheet has, after its first
    row, at least one row whose name is a text, the name column can be
    searched and every query without special characters returns (a record
    or [None]) without raising. *)
Theorem lookup_on_loaded_catalogue :
  (forall file_path catalog q,
     load_product_data file_path = Return catalog ->
     get_product_info q catalog <> Raise KeyError) /\
  (forall header first rest r t,
     length header = 6%nat -> r ∈ rest -> cell_at 1 r = Text t ->
     exists catalog,
       load_product_data (Sheet header (first :: rest)) = Return catalog /\
       name_column catalog =
         Return {| s_dtype := ObjectDtype; values := map (cell_at 1) rest |} /\
       forall q, Re.plain q = true ->
         get_product_info q catalog = Return (first_containing q catalog)).
Proof.
  split.
  - intros file_path catalog q Hl.
    destruct (LoadedFacts.load_product_data_getitem _ _ Hl) as [s Hg].
    unfold get_product_info. rewrite Hg. cbn [obind].
    unfold str_accessor.
    destruct (s_dtype s); [|discriminate].
    destruct (_ || _); [|discriminate]. cbn [obind].
    unfold str_contains. destruct (Re.compile q (negb false)); cbn [obind]; try discriminate.
    destruct (rows _) as [|[i row] l]; discriminate.
  - intros header first rest r t Hh Hr Ht.
    destruct (LoadedFacts.loaded_getitem header first rest Hh) as (catalog & Hl & _ & _ & Hg).
    exists catalog. split; [exact Hl|].
    assert (Hn : name_column catalog =
                 Return {| s_dtype := ObjectDtype; values := map (cell_at 1) rest |}).
    { unfold name_column. rewrite Hg. cbn [obind str_accessor s_dtype values].
      assert (He : existsb is_text (map (cell_at 1) rest) = true)
        by (apply (LoadedFacts.existsb_map_elem _ _ _ r Hr); rewrite Ht; reflexivity).
      unfold column_dtype. cbn [map existsb]. rewrite He, orb_true_r.
      cbn [orb]. reflexivity. }
    split; [exact Hn|]. intros q Hq.
    apply (LookupFacts.get_product_info_plain q catalog _ Hq Hn).
Qed.

Lemma lookup_on_loaded_catalogue_witness :
  get_product_info "(" (sample_catalog ["Blue Paint"]) <> Raise KeyError /\
  exists catalog,
    load_product_data (sample_sheet ["Blue Paint"]) = Return catalog /\
    name_column catalog =
      Return {| s_dtype := ObjectDtype;
                values := map (cell_at 1) [sample_row 1 "Blue Paint"] |} /\
    forall q, Re.plain q = true ->
      get_product_info q catalog = Return (first_containing q catalog).
Proof.
  split.
  - apply (proj1 lookup_on_loaded_catalogue (sample_sheet ["Blue Paint"])). reflexivity.
  - apply (proj2 lookup_on_loaded_catalogue sample_header reserved_row
             [sample_row 1 "Blue Paint"] (sample_row 1 "Blue Paint") "Blue Paint").
    + reflexivity.
    + left.
    + reflexivity.
Defined.

(* ===================================================================== *)
(** * Further properties of the pipeline *)
(* ===================================================================== *)

Module PromptFacts.

Lemma prompt_keys_elem key :
  key ∈ prompt_keys <->
  key = "Producto" \/ key = Descripcion \/ key = "Beneficios" \/ key = Aplicacion \/
  key = "Recomendaciones de Uso".
Proof. unfold prompt_keys. rewrite !elem_of_cons, elem_of_nil. tauto. Qed.

(** [build_prompt] returns when the five keys are there and raises
    [KeyError] when one is not. *)
Lemma build_prompt_outcome info question :
  ((forall key, key ∈ prompt_keys -> is_Some (info !! key)) /\
   exists prompt, build_prompt info question = Return prompt) \/
  ((exists key, key ∈ prompt_keys /\ info !! key = None) /\
   build_prompt info question = Raise KeyError).
Proof.
  unfold build_prompt, subscript.
  destruct (info !! "Producto") as [v1|] eqn:E1; cbn [obind];
    [|right; split; [exists "Producto"; rewrite prompt_keys_elem; auto 10 | reflexivity]].
  destruct (info !! Descripcion) as [v2|] eqn:E2; cbn [obind];
    [|right; split; [exists Descripcion; rewrite prompt_keys_elem; auto 10 | reflexivity]].
  destruct (info !! "Beneficios") as [v3|] eqn:E3; cbn [obind];
    [|right; split; [exists "Beneficios"; rewrite prompt_keys_elem; auto 10 | reflexivity]].
  destruct (info !! Aplicacion) as [v4|] eqn:E4; cbn [obind];
    [|right; split; [exists Aplicacion; rewrite prompt_keys_elem; auto 10 | reflexivity]].
  destruct (info !! "Recomendaciones de Uso") as [v5|] eqn:E5; cbn [obind];
    [|right; split; [exists "Recomendaciones de Uso"; rewrite prompt_keys_elem; auto 10
                    | reflexivity]].
  left. split; [|eauto].
  intros key Hk. apply prompt_keys_elem in Hk as [->|[->|[->|[->| ->]]]]; eexists; eassumption.
Qed.

Lemma lstrip_chars_blank l :
  forallb PyStr.isspace l = true -> PyStr.lstrip_chars l = [].
Proof.
  induction l as [|c l IH]; [reflexivity|]. cbn [forallb PyStr.lstrip_chars].
  intros H. apply andb_true_iff in H as [Hc Hl]. rewrite Hc. apply IH, Hl.
Qed.

Lemma strip_empty_iff content :
  PyStr.strip content = "" <-> forallb PyStr.isspace (PyStr.chars content) = true.
Proof.
  split.
  - intros H. destruct (PipelineFacts.strip_trimmed content) as (l & r & Hc & Hl & Hr & _).
    rewrite H in Hc. cbn in Hc. rewrite Hc, forallb_app, Hl, Hr. reflexivity.
  - intros H. unfold PyStr.strip. rewrite lstrip_chars_blank by exact H. reflexivity.
Qed.

End PromptFacts.

(** X11.  The error handling of [generate_chatbot_response] does not cover
    the building of the prompt.  When the record lacks one of the five keys
    the call raises [KeyError], sends no request and leaves the state as it
    was; it raises in no other case, and then only [KeyError]. *)
Theorem generate_chatbot_response_missing_key
    (create : request -> api_outcome) (info : gmap string cell)
    (question : string) (st : state) :
  ((exists key, key ∈ prompt_keys /\ info !! key = None) ->
   generate_chatbot_response create info question st = (st, Raise KeyError)) /\
  (forall st' e,
     generate_chatbot_response create info question st = (st', Raise e) ->
     e = KeyError /\ st' = st /\ exists key, key ∈ prompt_keys /\ info !! key = None) /\
  (forall st', generate_chatbot_response create info question st <> (st', Unmodelled)).
Proof.
  destruct (PromptFacts.build_prompt_outcome info question)
    as [[Hall [prompt Hp]]|[Hmiss Hp]].
  - rewrite (PipelineFacts.generate_chatbot_response_spec _ _ _ _ _ Hp).
    split; [|split; [intros st' e [=] | intros st' [=]]].
    intros (key & Hk & Hnone). destruct (Hall key Hk) as [v Hv]. congruence.
  - assert (Hg : generate_chatbot_response create info question st = (st, Raise KeyError))
      by (unfold generate_chatbot_response, bind, lift; rewrite Hp; reflexivity).
    rewrite Hg. split; [auto|]. split; [|intros st' [=]].
    intros st' e [= <- <-]. auto.
Qed.

Lemma generate_chatbot_response_missing_key_witness :
  generate_chatbot_response (fun _ => Completion "ok")
    (delete "Beneficios" (sample_record 1 "Sealant X")) "How do I apply it?" initial
  = (initial, Raise KeyError).
Proof.
  apply (proj1 (generate_chatbot_response_missing_key (fun _ => Completion "ok")
                  (delete "Beneficios" (sample_record 1 "Sealant X"))
                  "How do I apply it?" initial)).
  exists "Beneficios". split; [apply PromptFacts.prompt_keys_elem; auto|].
  apply lookup_delete_eq.
Defined.

(** X12.  When the call succeeds the answer can be empty: it is the empty
    text exactly when the content that the service returned is empty or
    made of white space only.  (An answer made of an error is never
    empty.) *)
Theorem generate_chatbot_response_empty_answer
    (create : request -> api_outcome) (info : gmap string cell)
    (question prompt content : string) (st : state) :
  build_prompt info question = Return prompt ->
  create (chat_request prompt) = Completion content ->
  exists answer,
    snd (generate_chatbot_response create info question st) = Return answer /\
    (answer = "" <-> forallb PyStr.isspace (PyStr.chars content) = true).
Proof.
  intros Hp Hc. rewrite (PipelineFacts.generate_chatbot_response_spec _ _ _ _ _ Hp).
  cbn [snd]. rewrite Hc. cbn [answer_of]. eexists. split; [reflexivity|].
  apply PromptFacts.strip_empty_iff.
Qed.

Lemma generate_chatbot_response_empty_answer_witness :
  exists answer,
    snd (generate_chatbot_response (fun _ => Completion "   ")
           (sample_record 1 "Sealant X") "How do I apply it?" initial) = Return answer /\
    (answer = "" <-> forallb PyStr.isspace (PyStr.chars "   ") = true).
Proof.
  destruct (PromptFacts.build_prompt_outcome (sample_record 1 "Sealant X")
              "How do I apply it?") as [[_ [prompt Hp]]|[_ Hp]].
  - apply (generate_chatbot_response_empty_answer (fun _ => Completion "   ")
             (sample_record 1 "Sealant X") "How do I apply it?" prompt "   " initial Hp).
    reflexivity.
  - vm_compute in Hp. discriminate Hp.
Defined.

(* ===================================================================== *)
(** * Further properties of the script and of sessions *)
(* ===================================================================== *)

Module SessionFacts.

Lemma session_snoc runs i : session (runs ++ [i]) = run (session runs) i.
Proof. unfold session. apply foldl_snoc. Qed.

Lemma reachable_session runs : reachable (session runs).
Proof.
  induction runs as [|i runs IH] using rev_ind.
  - apply reachable_initial.
  - rewrite session_snoc. apply reachable_run, IH.
Qed.

Lemma tail_skipn {A : Type} n (l : list A) : tail (skipn n l) = skipn (S n) l.
Proof.
  change (tail (skipn n l)) with (skipn 1 (skipn n l)).
  rewrite skipn_skipn. reflexivity.
Qed.

(** Appending within the bound keeps the last entries. *)
Lemma appended_last_entries (l : list (string * string)) e :
  appended (last_entries MAX_HISTORY l) e = last_entries MAX_HISTORY (l ++ [e]).
Proof.
  unfold appended, last_entries, MAX_HISTORY.
  rewrite length_skipn, length_app. cbn [length].
  destruct (decide (length l < 5)%nat) as [Hlt|Hge].
  - rewrite bool_decide_eq_true_2 by lia.
    replace (length l - 5)%nat with 0%nat by lia.
    replace (length l + 1 - 5)%nat with 0%nat by lia. reflexivity.
  - rewrite bool_decide_eq_false_2 by lia.
    rewrite tail_skipn, skipn_app.
    replace (S (length l - 5))%nat with (length l + 1 - 5)%nat by lia.
    replace (length l + 1 - 5 - length l)%nat with 0%nat by lia. reflexivity.
Qed.

Lemma run_spec st i :
  reachable st ->
  history (run st i) =
    match entry_of i with
    | Some e => appended (history st) e
    | None => history st
    end /\
  api_requests (trace (run st i)) =
    api_requests (trace st) ++
    match request_of i with
    | Some r => [r]
    | None => []
    end.
Proof.
  intros Hr. unfold run, entry_of, request_of.
  destruct (ScriptFacts.script_spec (service i) (catalogue i) (inputs i) st
              (ScriptFacts.reachable_bounded st Hr)) as [-> ->].
  destruct (answered (service i) (catalogue i) (inputs i)) as [[e r]|]; auto.
Qed.

Lemma Forall_appended (P : string * string -> Prop) conv e :
  Forall P conv -> P e -> Forall P (appended conv e).
Proof.
  intros Hc He. unfold appended. destruct (bool_decide _).
  - apply Forall_app. auto.
  - apply Forall_app. split; [apply Forall_tail, Hc | auto].
Qed.

End SessionFacts.

(** X13.  The history of a session is the list of the entries of its
    answered runs, oldest first, cut to the last five: nothing else is ever
    dropped, reordered or changed. *)
Theorem session_history_is_the_last_five (runs : list interaction) :
  history (session runs) = last_entries 5 (omap entry_of runs).
Proof.
  induction runs as [|i runs IH] using rev_ind; [reflexivity|].
  rewrite SessionFacts.session_snoc, omap_app. cbn [omap list_omap].
  destruct (SessionFacts.run_spec (session runs) i (SessionFacts.reachable_session runs))
    as [-> _].
  rewrite IH. destruct (entry_of i) as [e|]; cbn [omap list_omap].
  - apply SessionFacts.appended_last_entries.
  - rewrite app_nil_r. reflexivity.
Qed.

(** X14.  The requests sent in a session are those of its answered runs,
    one for each, in the order of the runs: a run that appends nothing
    sends nothing, and no run sends twice (there is no retry). *)
Theorem session_requests_are_those_of_the_answered_runs (runs : list interaction) :
  api_requests (trace (session runs)) = omap request_of runs /\
  length (api_requests (trace (session runs))) = length (omap entry_of runs).
Proof.
  assert (H : api_requests (trace (session runs)) = omap request_of runs).
  { induction runs as [|i runs IH] using rev_ind; [reflexivity|].
    rewrite SessionFacts.session_snoc, omap_app. cbn [omap list_omap].
    destruct (SessionFacts.run_spec (session runs) i (SessionFacts.reachable_session runs))
      as [_ ->].
    rewrite IH. destruct (request_of i); cbn [omap list_omap]; reflexivity. }
  split; [exact H|]. rewrite H. clear H.
  induction runs as [|i runs IH]; [reflexivity|].
  cbn [omap list_omap]. unfold entry_of at 1, request_of at 1.
  destruct (answered (service i) (catalogue i) (inputs i)) as [[e r]|];
    cbn [fmap option_fmap option_map length]; rewrite ?IH; reflexivity.
Qed.

(** X15.  In every state of a session, every entry of the history has a
    question that is not empty, and every request that was sent has the
    fixed parameters of the program: the model, the system message followed
    by one user message, at most 500 tokens, temperature 0.7. *)
Theorem session_entries_and_requests_are_well_formed (st : state) :
  reachable st ->
  Forall (fun entry => fst entry <> "") (history st) /\
  Forall well_formed_request (api_requests (trace st)).
Proof.
  induction 1 as [|st create data w Hr [IHh IHt]].
  - split; [|constructor]. unfold history, initial. cbn [session_state].
    rewrite lookup_empty. constructor.
  - destruct (ScriptFacts.script_spec create data w st
                (ScriptFacts.reachable_bounded st Hr)) as [-> ->].
    destruct (answered create data w) as [[e r]|] eqn:Ea.
    + destruct (AnsweredFacts.answered_Some _ _ _ _ _ Ea)
        as (_ & Hq & info & prompt & _ & _ & _ & -> & ->).
      split.
      * apply SessionFacts.Forall_appended; [exact IHh | exact Hq].
      * apply Forall_app. split; [exact IHt|].
        constructor; [|constructor]. exists prompt. reflexivity.
    + rewrite app_nil_r. auto.
Qed.

Lemma session_entries_and_requests_are_well_formed_witness :
  Forall (fun entry => fst entry <> "") (history five_questions) /\
  Forall well_formed_request (api_requests (trace five_questions)).
Proof.
  apply (session_entries_and_requests_are_well_formed five_questions).
  repeat apply AnsweredFacts.reachable_ask. apply reachable_initial.
Defined.

Module TraceFacts.

Lemma on_submit_trace create data w st conv :
  session_state st !! "conversation" = Some conv ->
  exists st' o,
    on_submit create data w st = (st', o) /\
    (exists conv', session_state st' !! "conversation" = Some conv') /\
    trace st' = trace st ++ submit_effects create data w.
Proof.
  intros Hconv. unfold on_submit, submit_effects.
  destruct (bool_decide (user_question w = "")).
  { eexists _, _. split; [reflexivity|]. cbn [session_state trace]. eauto. }
  unfold bind at 1. unfold lift at 1.
  destruct (lookup_selected (selected_product w) data) as [[info|]|e|].
  - destruct (bool_decide (info = ∅)).
    { eexists _, _. split; [reflexivity|]. cbn [session_state trace]. eauto. }
    destruct (build_prompt info (user_question w)) as [prompt|e|] eqn:Ep.
    + unfold bind at 1.
      rewrite (PipelineFacts.generate_chatbot_response_spec _ _ _ _ _ Ep).
      unfold append, conversation, set_conversation, emit, bind.
      cbn [session_state trace]. rewrite Hconv. cbn [session_state trace].
      eexists _, _. split; [reflexivity|]. cbn [session_state trace].
      rewrite lookup_insert_eq, <- app_assoc. eauto.
    + unfold bind at 1, generate_chatbot_response, bind, lift. rewrite Ep.
      eexists _, _. split; [reflexivity|]. rewrite app_nil_r. eauto.
    + unfold bind at 1, generate_chatbot_response, bind, lift. rewrite Ep.
      eexists _, _. split; [reflexivity|]. rewrite app_nil_r. eauto.
  - eexists _, _. split; [reflexivity|]. cbn [session_state trace]. eauto.
  - eexists _, _. split; [reflexivity|]. rewrite app_nil_r. eauto.
  - eexists _, _. split; [reflexivity|]. rewrite app_nil_r. eauto.
Qed.

(** What a run adds to the trace. *)
Lemma script_trace create data w st ns :
  product_names data = Return ns ->
  trace (fst (script create data w st)) =
  trace st ++ (if button w then submit_effects create data w else []).
Proof.
  intros Hpn.
  cut (exists st' o, script create data w st = (st', o) /\
         trace st' = trace st ++ (if button w then submit_effects create data w else [])).
  { intros (st' & o & -> & H). exact H. }
  unfold script. unfold bind at 1. unfold lift at 1. rewrite Hpn.
  unfold bind at 1.
  destruct (ScriptFacts.init_conversation_spec st) as (st1 & -> & Hc1 & Ht1).
  unfold bind at 1. destruct (button w).
  - destruct (on_submit_trace create data w st1 _ Hc1) as (st2 & o & -> & [conv' Hc2] & Ht2).
    destruct o as [[]|e|]; try (eexists _, _; split; [reflexivity|]; congruence).
    destruct (ScriptFacts.limit_history_spec st2 _ Hc2) as (st3 & -> & _ & Ht3).
    eexists _, _. split; [reflexivity|]. congruence.
  - unfold ret. destruct (ScriptFacts.limit_history_spec st1 _ Hc1) as (st3 & -> & _ & Ht3).
    eexists _, _. split; [reflexivity|]. rewrite app_nil_r. congruence.
Qed.

Lemma shown_spec create data w st ns :
  product_names data = Return ns ->
  shown create data w st = if button w then submit_effects create data w else [].
Proof.
  intros Hpn. unfold shown. rewrite (script_trace create data w st ns Hpn).
  apply drop_app_length.
Qed.

End TraceFacts.

(** X16.  On a catalogue that [load_product_data] returned, a run with the
    button pressed, a question that is not empty (white space counts) and a
    selected name for which the lookup returns a record always answers: the
    prompt is built, exactly one request is sent, and the question with the
    answer is appended to the history. *)
Theorem found_product_is_answered
    (file_path : source) (catalog : DataFrame) (create : request -> api_outcome)
    (w : widgets) (st : state) (name : string) (info : gmap string cell) :
  load_product_data file_path = Return catalog -> reachable st ->
  button w = true -> user_question w <> "" ->
  selected_product w = Some (Text name) ->
  get_product_info name catalog = Return (Some info) ->
  exists prompt,
    build_prompt info (user_question w) = Return prompt /\
    history (fst (script create catalog w st))
      = appended (history st)
          (user_question w, answer_of (create (chat_request prompt))) /\
    api_requests (trace (fst (script create catalog w st)))
      = api_requests (trace st) ++ [chat_request prompt].
Proof.
  intros Hl Hr Hb Hq Hsel Hg.
  destruct (LoadedFacts.load_product_data_getitem _ _ Hl) as [s Hs].
  pose proof (LoadFacts.load_product_data_columns _ _ Hl) as Hcols.
  destruct (RecordFacts.get_product_info_Some _ _ _ Hg) as (r & _ & Hinfo).
  rewrite Hcols in Hinfo.
  destruct (LoadFacts.to_dict_prompt (snd r) (user_question w)) as [prompt Hp].
  rewrite <- Hinfo in Hp.
  assert (Hne : info <> ∅).
  { intros ->. unfold build_prompt, subscript in Hp. rewrite lookup_empty in Hp.
    discriminate Hp. }
  assert (Ha : answered create catalog w
               = Some ((user_question w, answer_of (create (chat_request prompt))),
                       chat_request prompt)).
  { unfold answered, submitted, product_names. rewrite Hs. cbn [obind]. rewrite Hb.
    rewrite bool_decide_eq_false_2 by exact Hq.
    rewrite Hsel. cbn [lookup_selected]. rewrite Hg.
    rewrite bool_decide_eq_false_2 by exact Hne. rewrite Hp. reflexivity. }
  exists prompt. split; [exact Hp|].
  destruct (ScriptFacts.script_spec create catalog w st
              (ScriptFacts.reachable_bounded st Hr)) as [-> ->].
  rewrite Ha. auto.
Qed.

Lemma found_product_is_answered_witness :
  exists prompt,
    build_prompt (sample_record 1 "Sealant X") "   " = Return prompt /\
    history (fst (script (fun _ => Completion "ok") (sample_catalog ["Sealant X"])
                    (sealant_widgets "   ") five_questions))
      = appended (history five_questions)
          ("   ", answer_of ((fun _ : request => Completion "ok") (chat_request prompt))) /\
    api_requests (trace (fst (script (fun _ => Completion "ok")
                                (sample_catalog ["Sealant X"])
                                (sealant_widgets "   ") five_questions)))
      = api_requests (trace five_questions) ++ [chat_request prompt].
Proof.
  apply (found_product_is_answered (sample_sheet ["Sealant X"])
           (sample_catalog ["Sealant X"]) (fun _ => Completion "ok")
           (sealant_widgets "   ") five_questions "Sealant X"
           (sample_record 1 "Sealant X")).
  - reflexivity.
  - repeat apply AnsweredFacts.reachable_ask. apply reachable_initial.
  - reflexivity.
  - discriminate.
  - reflexivity.
  - vm_compute. reflexivity.
Defined.

(** X17.  What a run shows, on a frame that has the column "Producto".
    Without the button pressed it shows nothing.  With the button pressed:
    the warning alone when the question is empty; the error alone when the
    lookup returns [None]; the request followed by the success message, and
    nothing else, when the run answers; nothing when the lookup raises.  So
    the success message is shown exactly in the runs that send a request,
    and right after it. *)
Theorem script_messages (create : request -> api_outcome) (data : DataFrame)
    (w : widgets) (st : state) (ns : list cell) :
  product_names data = Return ns ->
  (button w = false -> shown create data w st = []) /\
  (button w = true -> user_question w = "" ->
     shown create data w st = [empty_question_warning]) /\
  (button w = true -> user_question w <> "" ->
     lookup_selected (selected_product w) data = Return None ->
     shown create data w st = [not_found_error]) /\
  (button w = true -> user_question w <> "" ->
     (forall found, lookup_selected (selected_product w) data <> Return found) ->
     shown create data w st = []) /\
  (forall entry r, answered create data w = Some (entry, r) ->
     shown create data w st = [ApiRequest r; answered_success]) /\
  (answered create data w = None ->
     forall r, (ApiRequest r ∉ shown create data w st) /\
               (answered_success ∉ shown create data w st)).
Proof.
  intros Hpn. rewrite (TraceFacts.shown_spec create data w st ns Hpn).
  unfold answered, submit_effects, submitted. rewrite Hpn.
  split; [intros ->; reflexivity|].
  split; [intros -> Hq; rewrite bool_decide_eq_true_2 by exact Hq; reflexivity|].
  split; [intros -> Hq Hl; rewrite bool_decide_eq_false_2 by exact Hq; rewrite Hl;
          reflexivity|].
  split.
  { intros -> Hq Hl. rewrite bool_decide_eq_false_2 by exact Hq.
    destruct (lookup_selected (selected_product w) data) as [found|e|];
      [destruct (Hl found); reflexivity | reflexivity | reflexivity]. }
  split.
  - intros entry r. destruct (button w); [|discriminate].
    destruct (bool_decide (user_question w = "")); [discriminate|].
    destruct (lookup_selected (selected_product w) data) as [[info|]|e|]; try discriminate.
    destruct (bool_decide (info = ∅)); [discriminate|].
    destruct (build_prompt info (user_question w)) as [prompt|e|]; try discriminate.
    intros [= <- <-]. reflexivity.
  - destruct (button w); [|intros _ r; split; apply not_elem_of_nil].
    destruct (bool_decide (user_question w = "")).
    { intros _ r. unfold empty_question_warning, answered_success.
      rewrite !list_elem_of_singleton. split; discriminate. }
    destruct (lookup_selected (selected_product w) data) as [[info|]|e|];
      try (intros _ r; split; apply not_elem_of_nil).
    + destruct (bool_decide (info = ∅)).
      { intros _ r. unfold not_found_error, answered_success.
        rewrite !list_elem_of_singleton. split; discriminate. }
      destruct (build_prompt info (user_question w)) as [prompt|e|]; try discriminate;
        intros _ r; split; apply not_elem_of_nil.
    + intros _ r. unfold not_found_error, answered_success.
      rewrite !list_elem_of_singleton. split; discriminate.
Qed.

Lemma script_messages_witness :
  shown (fun _ => Completion "ok") (sample_catalog ["Sealant X"]) (sealant_widgets "")
        five_questions
  = [empty_question_warning].
Proof.
  apply (proj1 (proj2 (script_messages (fun _ => Completion "ok")
                         (sample_catalog ["Sealant X"]) (sealant_widgets "")
                         five_questions [Text "Sealant X"] eq_refl)));
    reflexivity.
Defined.

Module ChooseFacts.

Lemma load_product_data_modelled file_path : load_product_data file_path <> Unmodelled.
Proof.
  unfold load_product_data.
  destruct (read_excel file_path) as [df| |] eqn:E; cbn [obind]; try discriminate.
  - unfold set_columns. destruct (bool_decide _); cbn [obind]; try discriminate.
    unfold drop. destruct (existsb _ _); cbn [obind]; discriminate.
  - destruct file_path; discriminate E.
Qed.

End ChooseFacts.

(** X18.  Section 5 loads the uploaded file when there is one and the
    default file otherwise, and never falls back: with an upload the
    default file plays no part, even when the upload cannot be loaded and
    the default could.  The run goes on with the catalogue of the chosen
    file exactly when [load_product_data] returns on it; otherwise the side
    bar shows one error and the run stops.  (Whatever the text of the
    exception is.) *)
Theorem choose_product_data_never_falls_back
    (exception_text : exn -> string) (uploaded_file : option source)
    (default_file : source) :
  (forall catalog,
     snd (choose_product_data exception_text uploaded_file default_file) = Some catalog <->
     load_product_data (match uploaded_file with
                        | Some file => file
                        | None => default_file
                        end) = Return catalog) /\
  (snd (choose_product_data exception_text uploaded_file default_file) = None ->
   exists msg,
     fst (choose_product_data exception_text uploaded_file default_file)
       = [NoticeError msg]) /\
  (forall file other_default,
     uploaded_file = Some file ->
     choose_product_data exception_text uploaded_file other_default
       = choose_product_data exception_text uploaded_file default_file) /\
  (uploaded_file = None -> load_product_data default_file = Raise FileNotFoundError ->
   fst (choose_product_data exception_text uploaded_file default_file)
     = [NoticeError "Archivo de producto por defecto no encontrado. Por favor, sube un archivo Excel."]).
Proof.
  destruct uploaded_file as [file|]; cbv beta iota delta [choose_product_data].
  - pose proof (ChooseFacts.load_product_data_modelled file) as Hm.
    destruct (load_product_data file) as [c|e|]; [| |destruct Hm; reflexivity]; cbn [fst snd].
    + split; [intros catalog; split; intros [= ->]; reflexivity|].
      split; [discriminate|]. split; [reflexivity | discriminate].
    + split; [intros catalog; split; discriminate|].
      split; [eauto|]. split; [reflexivity | discriminate].
  - pose proof (ChooseFacts.load_product_data_modelled default_file) as Hm.
    destruct (load_product_data default_file) as [c|e|]; [| |destruct Hm; reflexivity].
    + cbn [fst snd]. split; [intros catalog; split; intros [= ->]; reflexivity|].
      split; [discriminate|]. split; [discriminate | discriminate].
    + split; [intros catalog; split; destruct e; discriminate|].
      split; [intros _; destruct e; cbn [fst]; eauto|].
      split; [discriminate|]. intros _ [= ->]. reflexivity.
Qed.

Lemma choose_product_data_never_falls_back_witness :
  snd (choose_product_data (fun _ => "error") (Some NotASheet)
         (sample_sheet ["Blue Paint"])) = None /\
  exists msg,
    fst (choose_product_data (fun _ => "error") (Some NotASheet)
           (sample_sheet ["Blue Paint"])) = [NoticeError msg].
Proof.
  split; [reflexivity|].
  apply (proj1 (proj2 (choose_product_data_never_falls_back (fun _ => "error")
                         (Some NotASheet) (sample_sheet ["Blue Paint"])))).
  reflexivity.
Defined.

Module SelectionFacts.

Lemma lookup_selected_not_text selected data :
  (forall name, selected <> Some (Text name)) ->
  forall found, lookup_selected selected data <> Return found.
Proof.
  intros Hsel found.
  assert (H : (let* col := getitem "Producto" data in
               let* _ := str_accessor col in
               @Raise (option (gmap string cell)) TypeError) <> Return found).
  { destruct (getitem "Producto" data) as [col| |]; cbn [obind]; try discriminate.
    destruct (str_accessor col) as [names| |]; cbn [obind]; discriminate. }
  destruct selected as [[name| |z]|]; cbn [lookup_selected]; try exact H.
  destruct (Hsel name). reflexivity.
Qed.

Lemma upper_char_one c l :
  PyStr.upper_char c = Some l -> PyStr.ord c <> 223%N ->
  exists c', l = [c'] /\ PyStr.lower_char c' = PyStr.lower_char c /\
             Re.special c' = Re.special c.
Proof.
  assert (H : match PyStr.upper_char c with
              | Some [c'] =>
                  bool_decide (PyStr.lower_char c' = PyStr.lower_char c)
                  && bool_decide (Re.special c' = Re.special c)
              | Some _ => bool_decide (PyStr.ord c = 223%N)
              | None => true
              end = true)
    by (destruct c as [[] [] [] [] [] [] [] []]; vm_compute; reflexivity).
  intros Hu Hne. rewrite Hu in H.
  destruct l as [|c' [|d l]].
  - apply bool_decide_eq_true in H. contradiction.
  - apply andb_true_iff in H as [H1 H2].
    apply bool_decide_eq_true in H1. apply bool_decide_eq_true in H2. eauto.
  - apply bool_decide_eq_true in H. contradiction.
Qed.

Lemma upper_chars_plain l u :
  PyStr.upper_chars l = Some u ->
  (forall c, c ∈ l -> PyStr.ord c <> 223%N) ->
  map PyStr.lower_char u = map PyStr.lower_char l /\
  forallb (fun c => negb (Re.special c)) u = forallb (fun c => negb (Re.special c)) l.
Proof.
  revert u. induction l as [|c l IH]; intros u Hu Hne.
  - injection Hu as <-. auto.
  - cbn [PyStr.upper_chars] in Hu.
    destruct (PyStr.upper_char c) as [k|] eqn:Ec; [|discriminate].
    destruct (PyStr.upper_chars l) as [r|] eqn:El; [|discriminate].
    injection Hu as <-.
    destruct (upper_char_one c k Ec) as (c' & -> & Hl & Hs); [apply Hne; left|].
    destruct (IH r eq_refl) as [IH1 IH2]; [intros x Hx; apply Hne; right; exact Hx|].
    cbn [app map forallb]. rewrite Hl, Hs, IH1, IH2. auto.
Qed.

End SelectionFacts.

(** X19.  When the select box holds nothing (the catalogue has no row) or
    a value that is not a text (a missing or numeric name), the lookup
    raises, so no run answers: whatever the question and the service, the
    history stays as it was and no request is sent. *)
Theorem selection_without_text_never_answers
    (create : request -> api_outcome) (data : DataFrame) (w : widgets) (st : state) :
  reachable st ->
  (forall name, selected_product w <> Some (Text name)) ->
  (forall found, lookup_selected (selected_product w) data <> Return found) /\
  history (fst (script create data w st)) = history st /\
  api_requests (trace (fst (script create data w st))) = api_requests (trace st).
Proof.
  intros Hr Hsel.
  pose proof (SelectionFacts.lookup_selected_not_text _ data Hsel) as Hl.
  split; [exact Hl|].
  destruct (ScriptFacts.script_spec create data w st
              (ScriptFacts.reachable_bounded st Hr)) as [-> ->].
  assert (Ha : answered create data w = None).
  { unfold answered, submitted.
    destruct (product_names data); [|reflexivity|reflexivity].
    destruct (button w); [|reflexivity].
    destruct (bool_decide _); [reflexivity|].
    destruct (lookup_selected (selected_product w) data) as [found| |];
      [destruct (Hl found); reflexivity | reflexivity | reflexivity]. }
  rewrite Ha, app_nil_r. auto.
Qed.

Lemma selection_without_text_never_answers_witness :
  (forall found,
     lookup_selected
       (selected_product {| selected_product := None; user_question := "q"; button := true |})
       (sample_catalog []) <> Return found) /\
  history (fst (script (fun _ => Completion "ok") (sample_catalog [])
                  {| selected_product := None; user_question := "q"; button := true |}
                  five_questions)) = history five_questions /\
  api_requests (trace (fst (script (fun _ => Completion "ok") (sample_catalog [])
                              {| selected_product := None; user_question := "q";
                                 button := true |} five_questions)))
    = api_requests (trace five_questions).
Proof.
  apply (selection_without_text_never_answers (fun _ => Completion "ok") (sample_catalog [])
           {| selected_product := None; user_question := "q"; button := true |}
           five_questions).
  - repeat apply AnsweredFacts.reachable_ask. apply reachable_initial.
  - discriminate.
Defined.

(** X20.  The upper-cased and the lower-cased query give the same result
    when the query has no special character and no sharp s, and its
    upper-casing stays among the code points below 256: then the
    upper-cased query has no special character either and differs from the
    query only in case. *)
Theorem get_product_info_upper_lower_agree (q u : string) (c : DataFrame) :
  Re.plain q = true ->
  (forall x, x ∈ PyStr.chars q -> PyStr.ord x <> 223%N) ->
  PyStr.upper q = Some u ->
  Re.plain u = true /\
  get_product_info u c = get_product_info (PyStr.lower q) c.
Proof.
  intros Hq Hss Hu. unfold PyStr.upper in Hu.
  destruct (PyStr.upper_chars (PyStr.chars q)) as [l|] eqn:El; [|discriminate].
  injection Hu as <-.
  destruct (SelectionFacts.upper_chars_plain _ _ El Hss) as [Hl Hp].
  assert (Hplain : Re.plain (PyStr.of_chars l) = true).
  { unfold Re.plain. rewrite PyStrFacts.chars_of_chars, Hp. exact Hq. }
  split; [exact Hplain|].
  assert (Hlow : PyStr.lower (PyStr.of_chars l) = PyStr.lower q).
  { apply PyStrFacts.chars_inj.
    rewrite !PyStrFacts.chars_lower, PyStrFacts.chars_of_chars. exact Hl. }
  destruct (name_column c) as [names|e|] eqn:Hn.
  - rewrite (LookupFacts.get_product_info_plain _ c names Hplain Hn).
    rewrite (LookupFacts.get_product_info_plain (PyStr.lower q) c names); [|
      rewrite PatternFacts.plain_lower; exact Hq | exact Hn].
    unfold first_containing. f_equal.
    assert (Hf : forall row, name_contains (PyStr.of_chars l) (name_cell c row)
                             = name_contains (PyStr.lower q) (name_cell c row)).
    { intros row. apply PatternFacts.name_contains_lower.
      rewrite Hlow, PatternFacts.lower_idem. reflexivity. }
    induction (rows c) as [|row rs IH]; [reflexivity|].
    rewrite !filter_cons, Hf.
    destruct (decide (Is_true (name_contains (PyStr.lower q) (name_cell c row))));
      [reflexivity | exact IH].
  - rewrite !PatternFacts.get_product_info_no_names by (rewrite Hn; discriminate).
    reflexivity.
  - rewrite !PatternFacts.get_product_info_no_names by (rewrite Hn; discriminate).
    reflexivity.
Qed.

Lemma get_product_info_upper_lower_agree_witness :
  Re.plain "BLUE PAINT" = true /\
  get_product_info "BLUE PAINT" (sample_catalog ["Blue Paint"; "Blue Paint Extra"])
  = get_product_info (PyStr.lower "Blue paint")
      (sample_catalog ["Blue Paint"; "Blue Paint Extra"]).
Proof.
  apply (get_product_info_upper_lower_agree "Blue paint" "BLUE PAINT"
           (sample_catalog ["Blue Paint"; "Blue Paint Extra"])).
  - reflexivity.
  - intros x Hx. vm_compute in Hx.
    repeat (apply elem_of_cons in Hx as [->|Hx]; [discriminate|]). inversion Hx.
  - reflexivity.
Defined.
